(** * Multi-channel notification delivery: a shallow embedding

    The development follows the Python sources file by file:

    - [py]                      the fragment of Python's exception discipline
                                the sources rely on ([raise], [try]/[except]);
    - [UserProfile], [User],
      [Notification]            notifications/models.py;
    - [NotificationChannel],
      [EmailChannel],
      [TwilioSMSChannel],
      [TelegramChannel]         notifications/channels.py;
    - [NotificationService]     notifications/service.py;
    - [tasks]                   notifications/tasks.py.

    Everything the sources reach through a module-level global (the Django
    settings object, the SMTP, HTTP and Twilio transports, the user table,
    the wall clock) is gathered in one record, [World], and passed
    explicitly.  Transports are arbitrary functions that may return or
    raise, so every statement below holds for every behaviour of the
    outside world.  Logging has no observable effect on the values the
    claims speak about and is left out. *)

From Stdlib Require Import ZArith Ascii String.
From stdpp Require Import base strings gmap list.

Local Open Scope string_scope.

(** ** Python exceptions *)

Module py.

(** The subclasses of [Exception] that occur in the sources or in the
    libraries they call.  [RuntimeError] stands for any other subclass of
    [Exception].  [BaseException]s outside [Exception] (KeyboardInterrupt,
    SystemExit) are not modelled. *)
Inductive exception : Type :=
| AttributeError (name : string)
| ValueError (msg : string)
| RequestException (msg : string)
| TwilioRestException (code : Z) (msg : string)
| DoesNotExist (model : string)
| Retry (when : Z)
| MaxRetriesExceededError
| RuntimeError (msg : string).

Inductive result (A : Type) : Type :=
| Return (a : A)
| Raise (e : exception).

Arguments Return {A} a.
Arguments Raise {A} e.

Definition bind {A B : Type} (m : result A) (k : A -> result B) : result B :=
  match m with
  | Return a => k a
  | Raise e => Raise e
  end.

(** [try: body / except ...: handler]; the handler receives the exception
    and decides by its class, re-raising what no clause matches. *)
Definition try_except {A : Type} (body : result A)
    (handler : exception -> result A) : result A :=
  match body with
  | Return a => Return a
  | Raise e => handler e
  end.

Definition returns {A : Type} (m : result A) : Prop :=
  exists a, m = Return a.

(** Code that also mutates objects: the state survives a raised
    exception, as the heap does in Python. *)
Definition stateful (S A : Type) : Type := S -> result A * S.

Definition ret_st {S A : Type} (a : A) : stateful S A :=
  fun s => (Return a, s).

Definition bind_st {S A B : Type} (m : stateful S A)
    (k : A -> stateful S B) : stateful S B :=
  fun s =>
    match m s with
    | (Return a, s') => k a s'
    | (Raise e, s') => (Raise e, s')
    end.

(** A call that touches no state of the caller. *)
Definition call {S A : Type} (m : result A) : stateful S A :=
  fun s => (m, s).

(** An assignment to, or a mutating method call on, the state. *)
Definition update {S : Type} (f : S -> S) : stateful S unit :=
  fun s => (Return tt, f s).

(** Reading the current state. *)
Definition get {S : Type} : stateful S S :=
  fun s => (Return s, s).

Definition raise {S A : Type} (e : exception) : stateful S A :=
  fun s => (Raise e, s).

(** [try]/[except] around stateful code: the handler runs in the state
    the body left behind. *)
Definition try_except_st {S A : Type} (body : stateful S A)
    (handler : exception -> stateful S A) : stateful S A :=
  fun s =>
    match body s with
    | (Return a, s') => (Return a, s')
    | (Raise e, s') => handler e s'
    end.

(** The line feed written [\n] in the sources. *)
Definition newline : string := String "010"%char EmptyString.

(** Truth value of a [str]: only the empty string is false. *)
Definition truthy (s : string) : bool :=
  match s with
  | EmptyString => false
  | String _ _ => true
  end.

(** Truth value of a value that may be [None]. *)
Definition truthy_opt (o : option string) : bool :=
  match o with
  | None => false
  | Some s => truthy s
  end.

End py.

(** Sequencing is written with stdpp's [x ← m; k] and [m;; k]. *)
#[global] Instance result_ret : MRet py.result := fun _ a => py.Return a.
#[global] Instance result_bind : MBind py.result := fun _ _ k m => py.bind m k.
#[global] Instance stateful_ret {S : Type} : MRet (py.stateful S) :=
  fun _ a => py.ret_st a.
#[global] Instance stateful_bind {S : Type} : MBind (py.stateful S) :=
  fun _ _ k m => py.bind_st m k.

(** ** notifications/models.py *)

Module UserProfile.

(** The [user] one-to-one field is the reverse accessor [User.userprofile]
    below.  Both character fields are nullable. *)
Record t : Type := Build {
  phone_number : option string;
  telegram_chat_id : option string;
}.

End UserProfile.

Module User.

(** django.contrib.auth.models.User, restricted to what the sources read.
    [userprofile] is [None] when no profile row points at the user:
    Django then raises RelatedObjectDoesNotExist, a subclass of
    AttributeError, which [getattr(user, 'userprofile', None)] turns into
    [None]. *)
Record t : Type := Build {
  pk : nat;
  username : string;
  email : string;
  userprofile : option UserProfile.t;
}.

End User.

Module Notification.

Record t : Type := Build {
  user : User.t;
  subject : string;
  message : string;
  status : string;
  sent_via : string;
  created_at : Z;
  sent_at : option Z;
}.

Definition set_status (v : string) (n : t) : t :=
  Build (user n) (subject n) (message n) v (sent_via n) (created_at n) (sent_at n).

Definition set_sent_via (v : string) (n : t) : t :=
  Build (user n) (subject n) (message n) (status n) v (created_at n) (sent_at n).

End Notification.

(** The notification table.  [rows] is the table itself, a row's primary
    key being its index; [journal] is the sequence of row images written
    so far, one entry per INSERT or UPDATE statement.  The database is
    taken to be reliable, and the recipient to have its row in the user
    table, so that the foreign key of [Notification.user] holds:
    [create] and [save] do not raise. *)
Record Database : Type := {
  rows : list Notification.t;
  journal : list (nat * Notification.t);
}.

Definition empty_db : Database := {| rows := []; journal := [] |}.

(** ** The outside world *)

(** The JSON body of an HTTP response, as far as the sources inspect it. *)
Inductive json_value : Type :=
| JNull
| JBool (b : bool)
| JNumber (z : Z)
| JString (s : string)
| JCompound (nonempty : bool).

Inductive json : Type :=
| JDict (d : gmap string json_value)
| JOther (v : json_value).

Definition json_truthy (v : json_value) : bool :=
  match v with
  | JNull => false
  | JBool b => b
  | JNumber z => negb (Z.eqb z 0)
  | JString s => py.truthy s
  | JCompound b => b
  end.

Record Response : Type := {
  status_code : Z;
  response_json : py.result json;
}.

Record Payload : Type := {
  chat_id : option string;
  text : string;
  parse_mode : string;
}.

(** twilio.rest.Client: the credentials it was built from. *)
Record Client : Type := {
  account_sid : string;
  auth_token : string;
}.

Record World : Type := {
  (** django.conf.settings: attribute name to value; an absent key is an
      attribute that does not exist. *)
  settings : gmap string string;
  (** django.core.mail.send_mail(subject, message, from_email,
      recipient_list), with fail_silently=False. *)
  send_mail : string -> string -> string -> list string -> py.result nat;
  (** requests.post(url, json=payload, timeout=...). *)
  requests_post : string -> Payload -> Z -> py.result Response;
  (** client.messages.create(body, from_, to); the result is the SID. *)
  messages_create : Client -> string -> string -> string -> py.result string;
  (** User.objects, by id. *)
  users : gmap nat User.t;
  (** The wall clock read by auto_now_add. *)
  now : Z;
}.

(** [settings.NAME]: AttributeError when the attribute does not exist. *)
Definition settings_attr (w : World) (name : string) : py.result string :=
  match settings w !! name with
  | Some v => py.Return v
  | None => py.Raise (py.AttributeError name)
  end.

(** [hasattr(settings, NAME)]. *)
Definition settings_hasattr (w : World) (name : string) : bool :=
  bool_decide (is_Some (settings w !! name)).

(** [getattr(settings, NAME, None)]. *)
Definition settings_getattr (w : World) (name : string) : option string :=
  settings w !! name.

Module Notification_objects.

(** [Notification.objects.create(user=, subject=, message=, status=)]:
    the remaining fields take their declared defaults ([sent_via] blank,
    [created_at] the current time through auto_now_add, [sent_at] null).
    Returns the primary key and the in-memory object. *)
Definition create (w : World) (db : Database) (user : User.t)
    (subject message status : string) : nat * Notification.t * Database :=
  let n := Notification.Build user subject message status "" (now w) None in
  let key := length (rows db) in
  (key, n, {| rows := rows db ++ [n]; journal := journal db ++ [(key, n)] |}).

(** [notification.save()]: one UPDATE writing every field of the object. *)
Definition save (db : Database) (key : nat) (n : Notification.t) : Database :=
  {| rows := <[key := n]> (rows db); journal := journal db ++ [(key, n)] |}.

End Notification_objects.

(** ** notifications/channels.py *)

(** The abstract base class: a [send] method and a [channel_name]
    property. *)
Class NotificationChannel (C : Type) : Type := {
  send : World -> C -> User.t -> string -> string -> py.result bool;
  channel_name : C -> string;
}.

Module EmailChannel.

Inductive t : Type := Build.

Definition channel_name (self : t) : string := "email".

Definition send (w : World) (self : t) (user : User.t)
    (subject message : string) : py.result bool :=
  if negb (py.truthy (User.email user)) then py.Return false
  else
    py.try_except
      (host_user ← settings_attr w "EMAIL_HOST_USER";
       host_password ← settings_attr w "EMAIL_HOST_PASSWORD";
       host ← settings_attr w "EMAIL_HOST";
       if negb (forallb py.truthy [host_user; host_password; host])
       then py.Return false
       else
         from_email ← settings_attr w "DEFAULT_FROM_EMAIL";
         send_mail w subject message from_email [User.email user];;
         py.Return true)
      (fun e => py.Return false).

End EmailChannel.

#[global] Instance EmailChannel_channel : NotificationChannel EmailChannel.t :=
  {| send := EmailChannel.send; channel_name := EmailChannel.channel_name |}.

Module TwilioSMSChannel.

Record t : Type := Build {
  client : option Client;
}.

(** [__init__]: the client is built only when both credentials exist
    and are non-empty. *)
Definition init (w : World) : t :=
  if settings_hasattr w "TWILIO_ACCOUNT_SID"
     && settings_hasattr w "TWILIO_AUTH_TOKEN"
     && py.truthy_opt (settings_getattr w "TWILIO_ACCOUNT_SID")
     && py.truthy_opt (settings_getattr w "TWILIO_AUTH_TOKEN")
  then
    Build (Some {| account_sid :=
                     default "" (settings_getattr w "TWILIO_ACCOUNT_SID");
                   auth_token :=
                     default "" (settings_getattr w "TWILIO_AUTH_TOKEN") |})
  else Build None.

Definition channel_name (self : t) : string := "sms".

Definition send (w : World) (self : t) (user : User.t)
    (subject message : string) : py.result bool :=
  match client self with
  | None => py.Return false
  | Some the_client =>
    match User.userprofile user with
    | None => py.Return false
    | Some profile =>
      match UserProfile.phone_number profile with
      | None => py.Return false
      | Some phone_number =>
        if negb (py.truthy phone_number) then py.Return false
        else
          py.try_except
            (let full_message :=
               if py.truthy subject then subject ++ py.newline ++ message
               else message in
             from_ ← settings_attr w "TWILIO_PHONE_NUMBER";
             messages_create w the_client full_message from_ phone_number;;
             py.Return true)
            (fun e =>
               match e with
               | py.TwilioRestException _ _ => py.Return false
               | _ => py.Return false
               end)
      end
    end
  end.

End TwilioSMSChannel.

#[global] Instance TwilioSMSChannel_channel :
    NotificationChannel TwilioSMSChannel.t :=
  {| send := TwilioSMSChannel.send;
     channel_name := TwilioSMSChannel.channel_name |}.

Module TelegramChannel.

Inductive t : Type := Build.

Definition channel_name (self : t) : string := "telegram".

(** [response_data.get(key)] on whatever [response.json()] returned. *)
Definition response_get (data : json) (key : string) :
    py.result (option json_value) :=
  match data with
  | JDict d => py.Return (d !! key)
  | JOther _ => py.Raise (py.AttributeError "get")
  end.

Definition send (w : World) (self : t) (user : User.t)
    (subject message : string) : py.result bool :=
  match User.userprofile user with
  | None => py.Return false
  | Some profile =>
    if negb (py.truthy_opt (UserProfile.telegram_chat_id profile))
    then py.Return false
    else
      let bot_token := settings_getattr w "TELEGRAM_BOT_TOKEN" in
      if negb (py.truthy_opt bot_token) then py.Return false
      else
        py.try_except
          (let full_message :=
             if py.truthy subject
             then "*" ++ subject ++ "*" ++ py.newline ++ message
             else message in
           let url := "https://api.telegram.org/bot" ++ default "" bot_token
                      ++ "/sendMessage" in
           let payload := {| chat_id := UserProfile.telegram_chat_id profile;
                             text := full_message;
                             parse_mode := "Markdown" |} in
           response ← requests_post w url payload 10;
           response_data ← response_json response;
           ok ← (if Z.eqb (status_code response) 200
                 then v ← response_get response_data "ok";
                      py.Return (from_option json_truthy false v)
                 else py.Return false) : py.result bool;
           if ok : bool then py.Return true
           else
             response_get response_data "description";;
             py.Return false)
          (fun e =>
             match e with
             | py.RequestException _ => py.Return false
             | _ => py.Return false
             end)
  end.

End TelegramChannel.

#[global] Instance TelegramChannel_channel :
    NotificationChannel TelegramChannel.t :=
  {| send := TelegramChannel.send;
     channel_name := TelegramChannel.channel_name |}.

(** An element of the service's channel list: any object of any class
    that implements the interface. *)
Inductive Channel : Type :=
| channel_of {C : Type} {H : NotificationChannel C} (c : C).

Definition Channel_send (w : World) (ch : Channel) :
    User.t -> string -> string -> py.result bool :=
  match ch with
  | channel_of c => send w c
  end.

Definition Channel_name (ch : Channel) : string :=
  match ch with
  | channel_of c => channel_name c
  end.

(** ** notifications/service.py *)

Module DeliveryReport.

(** The dictionary returned by [get_delivery_report], key by key. *)
Record t : Type := Build {
  success : bool;
  successful_channel : option string;
  failed_channels : list string;
  total_channels_attempted : nat;
}.

End DeliveryReport.

Module NotificationService.

Record t : Type := Build {
  user : User.t;
  subject : string;
  message : string;
  channels : list Channel;
  last_successful_channel : option string;
  failed_channels : list string;
}.

(** [__init__]: the order of the list is the priority of the channels. *)
Definition init (w : World) (user : User.t) (subject message : string) : t :=
  Build user subject message
    [ channel_of TelegramChannel.Build;
      channel_of EmailChannel.Build;
      channel_of (TwilioSMSChannel.init w) ]
    None
    [].

(** [service.channels = chs], the assignment by which another ordering
    (or a test double) is put in place of the default one. *)
Definition set_channels (chs : list Channel) (self : t) : t :=
  Build (user self) (subject self) (message self) chs
    (last_successful_channel self) (failed_channels self).

Definition set_last_successful_channel (v : option string) (self : t) : t :=
  Build (user self) (subject self) (message self) (channels self)
    v (failed_channels self).

(** [self.failed_channels.append(name)]. *)
Definition failed_channels_append (name : string) (self : t) : t :=
  Build (user self) (subject self) (message self) (channels self)
    (last_successful_channel self) (failed_channels self ++ [name]).

(** What one call of [send] works on: the service object, the
    notification object with its primary key, and the database. *)
Record frame : Type := {
  self : t;
  key : nat;
  notification : Notification.t;
  db : Database;
}.

Definition on_self (f : t -> t) (fr : frame) : frame :=
  {| self := f (self fr); key := key fr;
     notification := notification fr; db := db fr |}.

Definition on_notification (f : Notification.t -> Notification.t)
    (fr : frame) : frame :=
  {| self := self fr; key := key fr;
     notification := f (notification fr); db := db fr |}.

(** [notification.save()]. *)
Definition notification_save (fr : frame) : frame :=
  {| self := self fr; key := key fr; notification := notification fr;
     db := Notification_objects.save (db fr) (key fr) (notification fr) |}.

(** The body of the [for] loop for one channel.  [Some b] is
    [return b]; [None] lets the loop go on with the next channel. *)
Definition attempt (w : World) (channel : Channel) :
    py.stateful frame (option bool) :=
  let channel_name := Channel_name channel in
  py.try_except_st
    (fr ← py.get;
     success ← py.call (Channel_send w channel (user (self fr))
                          (subject (self fr)) (message (self fr)));
     if success : bool then
       py.update (on_notification (Notification.set_status "sent"));;
       py.update (on_notification (Notification.set_sent_via channel_name));;
       py.update notification_save;;
       py.update (on_self (set_last_successful_channel (Some channel_name)));;
       py.ret_st (Some true)
     else
       py.update (on_self (failed_channels_append channel_name));;
       py.ret_st None)
    (fun e =>
       py.update (on_self (failed_channels_append channel_name));;
       py.ret_st None).

(** [for channel in self.channels: ...]. *)
Fixpoint for_channels (w : World) (chs : list Channel) :
    py.stateful frame (option bool) :=
  match chs with
  | [] => py.ret_st None
  | channel :: rest =>
    r ← attempt w channel;
    match r with
    | Some b => py.ret_st (Some b)
    | None => for_channels w rest
    end
  end.

(** The statements of [send] after the record has been created. *)
Definition send_body (w : World) : py.stateful frame bool :=
  fr ← py.get;
  r ← for_channels w (channels (self fr));
  match r with
  | Some b => py.ret_st b
  | None =>
    py.update (on_notification (Notification.set_status "failed"));;
    py.update notification_save;;
    py.ret_st false
  end.

(** [send], with the whole final frame. *)
Definition run_send (w : World) (self0 : t) (db0 : Database) :
    py.result bool * frame :=
  let '(k, n, db1) :=
    Notification_objects.create w db0 (user self0) (subject self0)
      (message self0) "pending" in
  send_body w {| self := self0; key := k; notification := n; db := db1 |}.

(** [service.send()]: the value returned (or the exception raised), the
    service object and the database afterwards. *)
Definition send (w : World) (self0 : t) (db0 : Database) :
    py.result bool * t * Database :=
  let '(r, fr) := run_send w self0 db0 in (r, self fr, db fr).

Definition get_delivery_report (self : t) : DeliveryReport.t :=
  DeliveryReport.Build
    (bool_decide (last_successful_channel self <> None))
    (last_successful_channel self)
    (failed_channels self)
    (length (failed_channels self)
     + (if py.truthy_opt (last_successful_channel self) then 1 else 0)).

End NotificationService.

(** [notify_user]: build the service, send, hand the service back. *)
Definition notify_user (w : World) (user : User.t) (subject message : string)
    (db : Database) : py.result NotificationService.t * Database :=
  let service := NotificationService.init w user subject message in
  let '(r, service', db') := NotificationService.send w service db in
  (_ ← r; py.Return service', db').

(** ** notifications/tasks.py *)

Module tasks.

(** The decorator's arguments:
    [@shared_task(bind=True, max_retries=3, default_retry_delay=30)]. *)
Definition max_retries : nat := 3.
Definition default_retry_delay : Z := 30.

(** [self.request], as far as [retry] reads it. *)
Record Request : Type := {
  retries : nat;
}.

(** A task message on the broker: the arguments of the task, the retry
    count the execution will see, and the delay before it. *)
Record Signature : Type := {
  sig_user_id : nat;
  sig_subject : string;
  sig_message : string;
  sig_retries : nat;
  sig_countdown : Z;
}.

Record state : Type := {
  db : Database;
  broker : list Signature;
}.

Definition apply_async (sig : Signature) (s : state) : state :=
  {| db := db s; broker := broker s ++ [sig] |}.

(** The two shapes of dictionary the task returns. *)
Inductive task_result : Type :=
| status_success (user_id : nat) (username : string)
    (channel : option string) (subject : string)
| status_error (reason : string) (user_id : nat).

(** Celery's [Task.retry(exc=, countdown=)] called inside a worker, with
    [throw] left at its default.  When the retry count of this execution
    plus one goes beyond [max_retries], nothing is sent: [exc] is
    re-raised if one was given, MaxRetriesExceededError is raised
    otherwise.  Else the task is sent again with the count incremented,
    and the Retry exception is raised to tell the worker so. *)
Definition retry (request : Request) (user_id : nat)
    (subject message : string) (exc : option py.exception)
    (countdown : Z) : py.stateful state py.exception :=
  let retries' := retries request + 1 in
  if bool_decide (max_retries < retries')
  then
    match exc with
    | Some e => py.raise e
    | None => py.raise py.MaxRetriesExceededError
    end
  else
    py.update (apply_async {| sig_user_id := user_id;
                              sig_subject := subject;
                              sig_message := message;
                              sig_retries := retries';
                              sig_countdown := countdown |});;
    py.raise (py.Retry countdown).

(** [User.objects.get(id=user_id)]. *)
Definition User_objects_get (w : World) (user_id : nat) : py.result User.t :=
  match users w !! user_id with
  | Some u => py.Return u
  | None => py.Raise (py.DoesNotExist "User")
  end.

(** The test of the clause [except User.DoesNotExist]. *)
Definition is_User_DoesNotExist (e : py.exception) : bool :=
  match e with
  | py.DoesNotExist model => String.eqb model "User"
  | _ => false
  end.

(** [service.send()] run against the task's database. *)
Definition service_send (w : World) (service : NotificationService.t) :
    py.stateful state (bool * NotificationService.t) :=
  fun s =>
    let '(r, service', db') := NotificationService.send w service (db s) in
    (b ← r; py.Return (b, service'), {| db := db'; broker := broker s |}).

Definition send_notification_task (w : World) (request : Request)
    (user_id : nat) (subject message : string) :
    py.stateful state task_result :=
  py.try_except_st
    (user ← py.call (User_objects_get w user_id);
     let service := NotificationService.init w user subject message in
     '(success, service) ← service_send w service;
     if success : bool then
       py.ret_st (status_success user_id (User.username user)
                    (NotificationService.last_successful_channel service)
                    subject)
     else
       r ← retry request user_id subject message None 60;
       py.raise r)
    (fun e =>
       if is_User_DoesNotExist e
       then py.ret_st (status_error "user_not_found" user_id)
       else
         py.try_except_st
           (r ← retry request user_id subject message (Some e) 30;
            py.raise r)
           (fun e' =>
              match e' with
              | py.MaxRetriesExceededError =>
                py.ret_st (status_error "max_retries_exceeded" user_id)
              | _ => py.raise e'
              end)).

(** *** The worker

    A worker takes the messages off the broker one by one and executes
    the task with the retry count of the message; whatever an execution
    sends is put on the broker behind the messages already there. *)

Definition execute (w : World) (sig : Signature) (d : Database) :
    py.result task_result * state :=
  send_notification_task w {| retries := sig_retries sig |}
    (sig_user_id sig) (sig_subject sig) (sig_message sig)
    {| db := d; broker := [] |}.

(** The outcome of every execution, in order, the messages left over when
    the fuel runs out, and the database. *)
Fixpoint worker (fuel : nat) (w : World) (queue : list Signature)
    (d : Database) :
    list (Signature * py.result task_result) * list Signature * Database :=
  match fuel, queue with
  | 0, _ => ([], queue, d)
  | _, [] => ([], [], d)
  | S fuel', sig :: queue' =>
    let '(r, s) := execute w sig d in
    let '(log, pending, d') := worker fuel' w (queue' ++ broker s) (db s) in
    ((sig, r) :: log, pending, d')
  end.

(** [send_notification_task.delay(user_id, subject, message)]. *)
Definition delay (user_id : nat) (subject message : string) : Signature :=
  {| sig_user_id := user_id; sig_subject := subject; sig_message := message;
     sig_retries := 0; sig_countdown := 0 |}.

End tasks.

(** *** The task over arbitrary collaborators

    The text of [send_notification_task] once more, with the two calls
    of its [try] body that reach outside the task taken as parameters:
    [lookup] for [User.objects.get(id=user_id)] and [run_send] for
    [service.send()].  Either may return or raise anything, a database
    error included.  With [tasks.User_objects_get] and
    [NotificationService.send] for them it is [tasks.send_notification_task]
    itself. *)

Definition service_send_with
    (run_send : NotificationService.t -> Database ->
                py.result bool * NotificationService.t * Database)
    (service : NotificationService.t) :
    py.stateful tasks.state (bool * NotificationService.t) :=
  fun s =>
    let '(r, service', db') := run_send service (tasks.db s) in
    (b ← r; py.Return (b, service'),
     {| tasks.db := db'; tasks.broker := tasks.broker s |}).

Definition send_notification_task_with (w : World)
    (lookup : nat -> py.result User.t)
    (run_send : NotificationService.t -> Database ->
                py.result bool * NotificationService.t * Database)
    (request : tasks.Request) (user_id : nat) (subject message : string) :
    py.stateful tasks.state tasks.task_result :=
  py.try_except_st
    (user ← py.call (lookup user_id);
     let service := NotificationService.init w user subject message in
     '(success, service) ← service_send_with run_send service;
     if success : bool then
       py.ret_st (tasks.status_success user_id (User.username user)
                    (NotificationService.last_successful_channel service)
                    subject)
     else
       r ← tasks.retry request user_id subject message None 60;
       py.raise r)
    (fun e =>
       if tasks.is_User_DoesNotExist e
       then py.ret_st (tasks.status_error "user_not_found" user_id)
       else
         py.try_except_st
           (r ← tasks.retry request user_id subject message (Some e) 30;
            py.raise r)
           (fun e' =>
              match e' with
              | py.MaxRetriesExceededError =>
                py.ret_st (tasks.status_error "max_retries_exceeded" user_id)
              | _ => py.raise e'
              end)).

(** An exception raised inside the [try] body by one of the two
    collaborators. *)
Definition try_body_raises (w : World) (lookup : nat -> py.result User.t)
    (run_send : NotificationService.t -> Database ->
                py.result bool * NotificationService.t * Database)
    (user_id : nat) (subject message : string) (s : tasks.state)
    (e : py.exception) : Prop :=
  lookup user_id = py.Raise e
  \/ exists u,
       lookup user_id = py.Return u
       /\ (run_send (NotificationService.init w u subject message)
             (tasks.db s)).1.1 = py.Raise e.

(** The message [retry] sends for an execution. *)
Definition retry_message (request : tasks.Request) (user_id : nat)
    (subject message : string) (countdown : Z) : tasks.Signature :=
  {| tasks.sig_user_id := user_id;
     tasks.sig_subject := subject;
     tasks.sig_message := message;
     tasks.sig_retries := tasks.retries request + 1;
     tasks.sig_countdown := countdown |}.

(** ** Scenarios

    Concrete recipients and worlds, after the scenarios of
    test_fallback.py. *)

Module scenario.

Definition unreachable {A : Type} : py.result A :=
  py.Raise (py.RuntimeError "connection refused").

Definition email_settings : gmap string string :=
  <["EMAIL_HOST_USER" := "bot@test.com"]>
  (<["EMAIL_HOST_PASSWORD" := "secret"]>
  (<["EMAIL_HOST" := "smtp.test.com"]>
  (<["DEFAULT_FROM_EMAIL" := "noreply@test.com"]> ∅))).

(** test_basic_fallback, scenario 2: no Telegram chat id, a working
    mail server. *)
Definition user_without_telegram : User.t :=
  User.Build 1 "test_user" "test@test.com"
    (Some (UserProfile.Build (Some "+79123456789") None)).

Definition mail_world : World :=
  {| settings := email_settings;
     send_mail := fun _ _ _ _ => py.Return 1;
     requests_post := fun _ _ _ => unreachable;
     messages_create := fun _ _ _ _ => unreachable;
     users := {[ 1 := user_without_telegram ]};
     now := 1700000000 |}.

(** test_all_channels_failed: no phone number, no chat id, and mail that
    cannot be sent. *)
Definition user_unreachable : User.t :=
  User.Build 2 "temp_failed_user" "test@test.com"
    (Some (UserProfile.Build None None)).

Definition dead_world : World :=
  {| settings := ∅;
     send_mail := fun _ _ _ _ => unreachable;
     requests_post := fun _ _ _ => unreachable;
     messages_create := fun _ _ _ _ => unreachable;
     users := {[ 2 := user_unreachable ]};
     now := 1700000000 |}.

(** A test double that breaks the contract of [send] by raising. *)
Record FaultyChannel : Type := {
  faulty_name : string;
  faulty_error : py.exception;
}.

#[global] Instance FaultyChannel_channel : NotificationChannel FaultyChannel :=
  {| send := fun _ self _ _ _ => py.Raise (faulty_error self);
     channel_name := faulty_name |}.

(** The channel list [__init__] builds. *)
Definition default_channels (w : World) : list Channel :=
  [ channel_of TelegramChannel.Build;
    channel_of EmailChannel.Build;
    channel_of (TwilioSMSChannel.init w) ].

(** Everything configured and a recipient with every kind of address,
    but transports that raise. *)
Definition user_with_everything : User.t :=
  User.Build 4 "everywhere" "all@test.com"
    (Some (UserProfile.Build (Some "+79123456789") (Some "123456789"))).

Definition broken_transport_world : World :=
  {| settings :=
       <["TWILIO_ACCOUNT_SID" := "AC123"]>
       (<["TWILIO_AUTH_TOKEN" := "token"]>
       (<["TWILIO_PHONE_NUMBER" := "+15005550006"]>
       (<["TELEGRAM_BOT_TOKEN" := "42:abc"]> email_settings)));
     send_mail := fun _ _ _ _ => py.Raise (py.RuntimeError "SMTP down");
     requests_post := fun _ _ _ => py.Raise (py.RequestException "timeout");
     messages_create :=
       fun _ _ _ _ => py.Raise (py.TwilioRestException 20003 "Authenticate");
     users := {[ 4 := user_with_everything ]};
     now := 1700000000 |}.

(** A working mail server and, in the user table, the recipient without
    any address. *)
Definition mail_world_with_nobody : World :=
  {| settings := email_settings;
     send_mail := fun _ _ _ _ => py.Return 1;
     requests_post := fun _ _ _ => unreachable;
     messages_create := fun _ _ _ _ => unreachable;
     users := {[ 3 := User.Build 3 "nobody" "" None ]};
     now := 1700000000 |}.

(** A recipient with no address of any kind. *)
Definition user_without_contacts : User.t :=
  User.Build 3 "nobody" "" None.

Definition faulty_first : list Channel :=
  [ channel_of {| faulty_name := "push";
                  faulty_error := py.RuntimeError "boom" |};
    channel_of EmailChannel.Build ].

End scenario.

(** ** Vocabulary of the statements *)

Local Open Scope list_scope.

(** A channel's [send] succeeded: it returned, and what it returned is
    true.  A channel fails when it returns false or raises. *)
Definition succeeded (r : py.result bool) : bool :=
  match r with
  | py.Return true => true
  | _ => false
  end.

Definition outcome (w : World) (s : NotificationService.t) (ch : Channel) :
    py.result bool :=
  Channel_send w ch (NotificationService.user s)
    (NotificationService.subject s) (NotificationService.message s).

Definition delivers (w : World) (s : NotificationService.t) (ch : Channel) :
    Prop :=
  succeeded (outcome w s ch) = true.

Definition fails (w : World) (s : NotificationService.t) (ch : Channel) :
    Prop :=
  succeeded (outcome w s ch) = false.

(** The frame after [names] were appended to the failed channels. *)
Definition record_failures (names : list string)
    (fr : NotificationService.frame) : NotificationService.frame :=
  NotificationService.on_self
    (fun s =>
       NotificationService.Build (NotificationService.user s)
         (NotificationService.subject s) (NotificationService.message s)
         (NotificationService.channels s)
         (NotificationService.last_successful_channel s)
         (NotificationService.failed_channels s ++ names))
    fr.

(** The frame after a delivery through the channel called [name]. *)
Definition record_delivery (name : string)
    (fr : NotificationService.frame) : NotificationService.frame :=
  NotificationService.on_self
    (NotificationService.set_last_successful_channel (Some name))
    (NotificationService.notification_save
       (NotificationService.on_notification
          (Notification.set_sent_via name)
          (NotificationService.on_notification
             (Notification.set_status "sent") fr))).

(** The frame [send] starts its loop in. *)
Definition initial_frame (w : World) (self0 : NotificationService.t)
    (db0 : Database) : NotificationService.frame :=
  let '(k, n, db1) :=
    Notification_objects.create w db0 (NotificationService.user self0)
      (NotificationService.subject self0)
      (NotificationService.message self0) "pending" in
  {| NotificationService.self := self0; NotificationService.key := k;
     NotificationService.notification := n; NotificationService.db := db1 |}.

(** The frame after the loop fell through and the record was marked
    failed. *)
Definition record_exhaustion (fr : NotificationService.frame) :
    NotificationService.frame :=
  NotificationService.notification_save
    (NotificationService.on_notification (Notification.set_status "failed") fr).

(** The recipient has a usable chat identifier. *)
Definition has_chat_id (u : User.t) : bool :=
  match User.userprofile u with
  | Some p => py.truthy_opt (UserProfile.telegram_chat_id p)
  | None => false
  end.

(** The recipient has a usable phone number. *)
Definition has_phone_number (u : User.t) : bool :=
  match User.userprofile u with
  | Some p => py.truthy_opt (UserProfile.phone_number p)
  | None => false
  end.

(** What it takes for each channel to have delivered: the contact
    data, the settings and the call of the transport, which returned. *)
Definition email_was_sent (w : World) (u : User.t)
    (subject message : string) : Prop :=
  py.truthy (User.email u) = true
  /\ py.truthy_opt (settings_getattr w "EMAIL_HOST_USER") = true
  /\ py.truthy_opt (settings_getattr w "EMAIL_HOST_PASSWORD") = true
  /\ py.truthy_opt (settings_getattr w "EMAIL_HOST") = true
  /\ exists from_email n,
       settings w !! "DEFAULT_FROM_EMAIL" = Some from_email
       /\ send_mail w subject message from_email [User.email u]
          = py.Return n.

Definition sms_was_sent (w : World) (self : TwilioSMSChannel.t) (u : User.t)
    (subject message : string) : Prop :=
  exists the_client profile phone_number from_ sid,
    TwilioSMSChannel.client self = Some the_client
    /\ User.userprofile u = Some profile
    /\ UserProfile.phone_number profile = Some phone_number
    /\ py.truthy phone_number = true
    /\ settings w !! "TWILIO_PHONE_NUMBER" = Some from_
    /\ messages_create w the_client
         (if py.truthy subject
          then (subject ++ py.newline ++ message)%string
          else message)
         from_ phone_number
       = py.Return sid.

Definition telegram_was_sent (w : World) (u : User.t)
    (subject message : string) : Prop :=
  exists profile chat token response d v,
    User.userprofile u = Some profile
    /\ UserProfile.telegram_chat_id profile = Some chat
    /\ py.truthy chat = true
    /\ settings w !! "TELEGRAM_BOT_TOKEN" = Some token
    /\ py.truthy token = true
    /\ requests_post w
         ("https://api.telegram.org/bot" ++ token ++ "/sendMessage")%string
         {| chat_id := Some chat;
            text := if py.truthy subject
                    then ("*" ++ subject ++ "*" ++ py.newline
                          ++ message)%string
                    else message;
            parse_mode := "Markdown" |}
         10
       = py.Return response
    /\ status_code response = 200%Z
    /\ response_json response = py.Return (JDict d)
    /\ d !! "ok" = Some v
    /\ json_truthy v = true.

(** The executions a message on the broker can still give rise to,
    itself included, if every one of them schedules as much as an
    execution can. *)
Definition executions_left (sig : tasks.Signature) : nat :=
  2 ^ S (tasks.max_retries - tasks.sig_retries sig) - 1.

Definition queue_weight (queue : list tasks.Signature) : nat :=
  sum_list_with executions_left queue.

(** The state of a record: sent exactly when a channel is named. *)
Definition sent_iff_via (n : Notification.t) : Prop :=
  Notification.status n = "sent" <-> Notification.sent_via n <> "".

(** A freshly built service whose channel list was replaced by [chs]. *)
Definition service_with (w : World) (u : User.t) (subject message : string)
    (chs : list Channel) : NotificationService.t :=
  NotificationService.set_channels chs
    (NotificationService.init w u subject message).

(** * Properties *)

(** ** The loop of the fallback engine *)

Section engine.

Variable w : World.

Ltac run_stateful :=
  unfold NotificationService.attempt, py.try_except_st, mbind, stateful_bind,
    py.bind_st, py.get, py.call, py.update, py.ret_st; simpl.

Lemma attempt_fails ch fr :
  fails w (NotificationService.self fr) ch ->
  NotificationService.attempt w ch fr
  = (py.Return None, record_failures [Channel_name ch] fr).
Proof.
  unfold fails, outcome. intros Hf. run_stateful.
  destruct (Channel_send w ch _ _ _) as [[|]|e]; simpl in *;
    [discriminate | reflexivity | reflexivity].
Qed.

Lemma attempt_delivers ch fr :
  delivers w (NotificationService.self fr) ch ->
  NotificationService.attempt w ch fr
  = (py.Return (Some true), record_delivery (Channel_name ch) fr).
Proof.
  unfold delivers, outcome. intros Hd. run_stateful.
  destruct (Channel_send w ch _ _ _) as [[|]|e]; simpl in *;
    [reflexivity | discriminate | discriminate].
Qed.

Lemma record_failures_nil fr : record_failures [] fr = fr.
Proof.
  destruct fr as [[u sb m chs l f] k n d].
  unfold record_failures, NotificationService.on_self; simpl.
  by rewrite app_nil_r.
Qed.

Lemma record_failures_cons name names fr :
  record_failures names (record_failures [name] fr)
  = record_failures (name :: names) fr.
Proof.
  unfold record_failures, NotificationService.on_self; simpl.
  by rewrite <- app_assoc.
Qed.

(** While channels fail, the loop only grows the list of failures. *)
Lemma for_channels_all_fail chs : forall fr,
  Forall (fails w (NotificationService.self fr)) chs ->
  NotificationService.for_channels w chs fr
  = (py.Return None, record_failures (map Channel_name chs) fr).
Proof.
  induction chs as [|ch chs IH]; intros fr Hall; simpl.
  - by rewrite record_failures_nil.
  - inversion Hall as [|? ? Hch Hrest]; subst.
    unfold mbind, stateful_bind, py.bind_st.
    rewrite (attempt_fails _ _ Hch).
    rewrite (IH (record_failures [Channel_name ch] fr) Hrest).
    by rewrite record_failures_cons.
Qed.

(** The loop stops at the first channel that delivers. *)
Lemma for_channels_first_success before ch after fr :
  Forall (fails w (NotificationService.self fr)) before ->
  delivers w (NotificationService.self fr) ch ->
  NotificationService.for_channels w (before ++ ch :: after) fr
  = (py.Return (Some true),
     record_delivery (Channel_name ch)
       (record_failures (map Channel_name before) fr)).
Proof.
  revert fr. induction before as [|b before IH]; intros fr Hall Hd; simpl.
  - unfold mbind, stateful_bind, py.bind_st.
    rewrite (attempt_delivers _ _ Hd). by rewrite record_failures_nil.
  - inversion Hall as [|? ? Hb Hrest]; subst.
    unfold mbind, stateful_bind, py.bind_st.
    rewrite (attempt_fails _ _ Hb).
    rewrite (IH (record_failures [Channel_name b] fr) Hrest Hd).
    by rewrite record_failures_cons.
Qed.

(** Every list of channels either fails throughout or splits at its
    first delivering channel. *)
Lemma first_success_split s chs :
  Forall (fails w s) chs
  \/ exists before ch after,
       chs = before ++ ch :: after
       /\ Forall (fails w s) before /\ delivers w s ch.
Proof.
  induction chs as [|c chs IH].
  - left. constructor.
  - destruct (succeeded (outcome w s c)) eqn:Hc.
    + right. exists [], c, chs. repeat split; [constructor | exact Hc].
    + destruct IH as [Hall | (before & ch & after & -> & Hall & Hd)].
      * left. by constructor.
      * right. exists (c :: before), ch, after.
        repeat split; [by constructor | exact Hd].
Qed.

Lemma run_send_all_fail self0 db0 :
  Forall (fails w self0) (NotificationService.channels self0) ->
  NotificationService.run_send w self0 db0
  = (py.Return false,
     record_exhaustion
       (record_failures (map Channel_name (NotificationService.channels self0))
          (initial_frame w self0 db0))).
Proof.
  intros Hall.
  unfold NotificationService.run_send, initial_frame,
    Notification_objects.create, NotificationService.send_body.
  unfold mbind, stateful_bind, py.bind_st, py.get; simpl.
  rewrite for_channels_all_fail; [reflexivity | exact Hall].
Qed.

Lemma run_send_first_success self0 db0 before ch after :
  NotificationService.channels self0 = before ++ ch :: after ->
  Forall (fails w self0) before ->
  delivers w self0 ch ->
  NotificationService.run_send w self0 db0
  = (py.Return true,
     record_delivery (Channel_name ch)
       (record_failures (map Channel_name before) (initial_frame w self0 db0))).
Proof.
  intros Hchs Hall Hd.
  unfold NotificationService.run_send, initial_frame,
    Notification_objects.create, NotificationService.send_body.
  unfold mbind, stateful_bind, py.bind_st, py.get; simpl.
  rewrite Hchs.
  rewrite for_channels_first_success; [reflexivity | exact Hall | exact Hd].
Qed.

End engine.

(** ** What a run reports *)

(** C1.  For every channel ordering, when channel [i] (counted from 1, in
    priority order) is the first whose [send] succeeds, [send()] returns
    true and the report has [success] true, [successful_channel] the name
    of channel [i], and [failed_channels] the names of channels 1 to
    [i-1] in the order of the attempts. *)
Theorem send_first_success_report w u subject message chs db i ch :
  let s0 := service_with w u subject message chs in
  1 <= i ->
  chs !! (i - 1) = Some ch ->
  delivers w s0 ch ->
  (forall j c, 1 <= j -> j < i -> chs !! (j - 1) = Some c -> fails w s0 c) ->
  (NotificationService.send w s0 db).1.1 = py.Return true
  /\ DeliveryReport.success
       (NotificationService.get_delivery_report
          (NotificationService.send w s0 db).1.2) = true
  /\ DeliveryReport.successful_channel
       (NotificationService.get_delivery_report
          (NotificationService.send w s0 db).1.2) = Some (Channel_name ch)
  /\ DeliveryReport.failed_channels
       (NotificationService.get_delivery_report
          (NotificationService.send w s0 db).1.2)
     = map Channel_name (take (i - 1) chs).
Proof.
  intros s0 Hi Hch Hd Hbefore.
  assert (Hsplit : NotificationService.channels s0
                   = take (i - 1) chs ++ ch :: drop (S (i - 1)) chs).
  { simpl. symmetry. by apply take_drop_middle. }
  assert (Hall : Forall (fails w s0) (take (i - 1) chs)).
  { apply Forall_lookup. intros j c Hj.
    apply lookup_take_Some in Hj as [Hc Hlt].
    apply (Hbefore (S j)); [lia | lia |].
    by replace (S j - 1) with j by lia. }
  unfold NotificationService.send.
  rewrite (run_send_first_success w s0 db _ _ _ Hsplit Hall Hd).
  repeat split.
Qed.

(** The default ordering in the world of test_basic_fallback: Telegram
    fails for want of a chat id, email is channel 2 and delivers. *)
Lemma send_first_success_report_witness :
  let s0 := service_with scenario.mail_world scenario.user_without_telegram
              "Test 2" "Should use Email"
              (scenario.default_channels scenario.mail_world) in
  (NotificationService.send scenario.mail_world s0 empty_db).1.1
  = py.Return true
  /\ DeliveryReport.success
       (NotificationService.get_delivery_report
          (NotificationService.send scenario.mail_world s0 empty_db).1.2)
     = true
  /\ DeliveryReport.successful_channel
       (NotificationService.get_delivery_report
          (NotificationService.send scenario.mail_world s0 empty_db).1.2)
     = Some "email"
  /\ DeliveryReport.failed_channels
       (NotificationService.get_delivery_report
          (NotificationService.send scenario.mail_world s0 empty_db).1.2)
     = ["telegram"].
Proof.
  intros s0.
  assert (H1 : 1 <= 2) by lia.
  assert (H2 : scenario.default_channels scenario.mail_world !! (2 - 1)
               = Some (channel_of EmailChannel.Build)) by reflexivity.
  assert (H3 : delivers scenario.mail_world s0 (channel_of EmailChannel.Build))
    by (vm_compute; reflexivity).
  assert (H4 : forall j c, 1 <= j -> j < 2 ->
                 scenario.default_channels scenario.mail_world !! (j - 1)
                 = Some c ->
                 fails scenario.mail_world s0 c).
  { intros j c Hj1 Hj2 Hc. assert (j = 1) as -> by lia.
    simpl in Hc. injection Hc as <-. vm_compute. reflexivity. }
  exact (send_first_success_report scenario.mail_world
           scenario.user_without_telegram "Test 2" "Should use Email"
           (scenario.default_channels scenario.mail_world) empty_db 2
           (channel_of EmailChannel.Build) H1 H2 H3 H4).
Defined.

(** C2.  For every channel ordering, when every channel fails, [send()]
    returns false, the report has [success] false, no
    [successful_channel], and [failed_channels] holding every channel's
    name (so its length is the number of channels), and the record in the
    database has status 'failed'. *)
Theorem send_all_fail_report w u subject message chs db :
  let s0 := service_with w u subject message chs in
  Forall (fails w s0) chs ->
  (NotificationService.send w s0 db).1.1 = py.Return false
  /\ DeliveryReport.success
       (NotificationService.get_delivery_report
          (NotificationService.send w s0 db).1.2) = false
  /\ DeliveryReport.successful_channel
       (NotificationService.get_delivery_report
          (NotificationService.send w s0 db).1.2) = None
  /\ DeliveryReport.failed_channels
       (NotificationService.get_delivery_report
          (NotificationService.send w s0 db).1.2) = map Channel_name chs
  /\ length (DeliveryReport.failed_channels
               (NotificationService.get_delivery_report
                  (NotificationService.send w s0 db).1.2)) = length chs
  /\ exists n,
       rows (NotificationService.send w s0 db).2 !! length (rows db) = Some n
       /\ Notification.status n = "failed".
Proof.
  intros s0 Hall.
  unfold NotificationService.send.
  rewrite (run_send_all_fail w s0 db Hall).
  split_and!; simpl; try reflexivity.
  - by rewrite length_map.
  - eexists. split.
    + apply list_lookup_insert_eq. rewrite length_app. simpl. lia.
    + reflexivity.
Qed.

(** test_all_channels_failed: the default ordering against a recipient
    nobody can reach. *)
Lemma send_all_fail_report_witness :
  let s0 := service_with scenario.dead_world scenario.user_unreachable
              "Test - All Failed" "Should return False"
              (scenario.default_channels scenario.dead_world) in
  (NotificationService.send scenario.dead_world s0 empty_db).1.1
  = py.Return false
  /\ DeliveryReport.success
       (NotificationService.get_delivery_report
          (NotificationService.send scenario.dead_world s0 empty_db).1.2)
     = false
  /\ DeliveryReport.successful_channel
       (NotificationService.get_delivery_report
          (NotificationService.send scenario.dead_world s0 empty_db).1.2)
     = None
  /\ DeliveryReport.failed_channels
       (NotificationService.get_delivery_report
          (NotificationService.send scenario.dead_world s0 empty_db).1.2)
     = ["telegram"; "email"; "sms"]
  /\ length (DeliveryReport.failed_channels
               (NotificationService.get_delivery_report
                  (NotificationService.send scenario.dead_world s0
                     empty_db).1.2)) = 3
  /\ exists n,
       rows (NotificationService.send scenario.dead_world s0 empty_db).2 !! 0
       = Some n
       /\ Notification.status n = "failed".
Proof.
  intros s0.
  assert (H : Forall (fails scenario.dead_world s0)
                (scenario.default_channels scenario.dead_world)).
  { repeat constructor; vm_compute; reflexivity. }
  exact (send_all_fail_report scenario.dead_world scenario.user_unreachable
           "Test - All Failed" "Should return False"
           (scenario.default_channels scenario.dead_world) empty_db H).
Defined.

(** C7.  With an empty channel list the run does not raise: [send()]
    returns false, the record is marked 'failed', and the report has
    [success] false, no failed channels and zero channels attempted. *)
Theorem send_no_channels w u subject message db :
  let s0 := service_with w u subject message [] in
  (NotificationService.send w s0 db).1.1 = py.Return false
  /\ (exists n,
        rows (NotificationService.send w s0 db).2 !! length (rows db) = Some n
        /\ Notification.status n = "failed")
  /\ DeliveryReport.success
       (NotificationService.get_delivery_report
          (NotificationService.send w s0 db).1.2) = false
  /\ DeliveryReport.failed_channels
       (NotificationService.get_delivery_report
          (NotificationService.send w s0 db).1.2) = []
  /\ DeliveryReport.total_channels_attempted
       (NotificationService.get_delivery_report
          (NotificationService.send w s0 db).1.2) = 0.
Proof.
  intros s0.
  unfold NotificationService.send, NotificationService.run_send,
    NotificationService.send_body, Notification_objects.create.
  unfold mbind, stateful_bind, py.bind_st, py.get, py.update, py.ret_st; simpl.
  split_and!; try reflexivity.
  eexists. split.
  - apply list_lookup_insert_eq. rewrite length_app. simpl. lia.
  - reflexivity.
Qed.

(** ** Errors *)

(** The loop never raises, whatever the channels do. *)
Lemma for_channels_returns w chs fr :
  exists r fr', NotificationService.for_channels w chs fr = (py.Return r, fr').
Proof.
  destruct (first_success_split w (NotificationService.self fr) chs)
    as [Hall | (before & ch & after & -> & Hall & Hd)].
  - rewrite (for_channels_all_fail w chs fr Hall). eauto.
  - rewrite (for_channels_first_success w before ch after fr Hall Hd). eauto.
Qed.

(** [send()] returns a boolean for every service, database and world. *)
Lemma send_returns w s db :
  py.returns (NotificationService.send w s db).1.1.
Proof.
  destruct (first_success_split w s (NotificationService.channels s))
    as [Hall | (before & ch & after & Hchs & Hall & Hd)];
    unfold NotificationService.send.
  - rewrite (run_send_all_fail w s db Hall). by eexists.
  - rewrite (run_send_first_success w s db _ _ _ Hchs Hall Hd). by eexists.
Qed.

(** A failing channel, whether it returned false or raised, leaves the
    run where it would be without that channel, but for its name among
    the failed channels. *)
Lemma failing_channel_is_skipped w u subject message db before ch after :
  Forall (fails w (service_with w u subject message (before ++ ch :: after)))
    before ->
  fails w (service_with w u subject message (before ++ ch :: after)) ch ->
  (NotificationService.send w
     (service_with w u subject message (before ++ ch :: after)) db).1.1
  = (NotificationService.send w
       (service_with w u subject message (before ++ after)) db).1.1
  /\ NotificationService.last_successful_channel
       (NotificationService.send w
          (service_with w u subject message (before ++ ch :: after)) db).1.2
     = NotificationService.last_successful_channel
         (NotificationService.send w
            (service_with w u subject message (before ++ after)) db).1.2
  /\ NotificationService.failed_channels
       (NotificationService.send w
          (service_with w u subject message (before ++ ch :: after)) db).1.2
     = take (length before)
         (NotificationService.failed_channels
            (NotificationService.send w
               (service_with w u subject message (before ++ after)) db).1.2)
       ++ Channel_name ch
          :: drop (length before)
               (NotificationService.failed_channels
                  (NotificationService.send w
                     (service_with w u subject message (before ++ after))
                     db).1.2)
  /\ length before
     <= length
          (NotificationService.failed_channels
             (NotificationService.send w
                (service_with w u subject message (before ++ after)) db).1.2)
  /\ (NotificationService.send w
        (service_with w u subject message (before ++ ch :: after)) db).2
     = (NotificationService.send w
          (service_with w u subject message (before ++ after)) db).2.
Proof.
  intros Hbefore Hch.
  set (s := service_with w u subject message (before ++ ch :: after)).
  set (s' := service_with w u subject message (before ++ after)).
  assert (Hlen : length (map Channel_name before) = length before)
    by apply length_map.
  destruct (first_success_split w s after)
    as [Hafter | (mid & cj & rest & -> & Hmid & Hd)].
  - assert (Hall : Forall (fails w s) (NotificationService.channels s)).
    { simpl. apply Forall_app. split; [exact Hbefore|]. by constructor. }
    assert (Hall' : Forall (fails w s') (NotificationService.channels s')).
    { simpl. apply Forall_app. by split. }
    unfold NotificationService.send.
    rewrite (run_send_all_fail w s db Hall),
      (run_send_all_fail w s' db Hall').
    simpl. rewrite !map_app. simpl.
    rewrite <- Hlen at 1 2. rewrite take_app_length, drop_app_length.
    rewrite length_app. split_and!; try reflexivity. lia.
  - assert (Hchs : NotificationService.channels s
                   = (before ++ ch :: mid) ++ cj :: rest).
    { simpl. by rewrite <- app_assoc. }
    assert (Hchs' : NotificationService.channels s'
                    = (before ++ mid) ++ cj :: rest).
    { simpl. by rewrite <- app_assoc. }
    assert (Hall : Forall (fails w s) (before ++ ch :: mid)).
    { apply Forall_app. split; [exact Hbefore|]. by constructor. }
    assert (Hall' : Forall (fails w s') (before ++ mid)).
    { apply Forall_app. by split. }
    unfold NotificationService.send.
    rewrite (run_send_first_success w s db _ _ _ Hchs Hall Hd),
      (run_send_first_success w s' db _ _ _ Hchs' Hall' Hd).
    simpl. rewrite !map_app. simpl.
    rewrite <- Hlen at 1 2. rewrite take_app_length, drop_app_length.
    rewrite length_app. split_and!; try reflexivity. lia.
Qed.

(** C6.  For every channel ordering and every position [i], when the
    [send] of channel [i] raises (and no channel before it delivered, so
    that the loop gets to it), [send()] does not raise: it returns a
    boolean; channel [i] is recorded as failed, its name standing at
    position [i] of the failed channels; and the chain goes on behind
    it: the value returned, the successful channel and the database are
    those of the run over the same list without channel [i], whose
    failed channels are the same but for the name of channel [i]. *)
Theorem raising_channel_is_skipped w u subject message chs db i ch e :
  chs !! i = Some ch ->
  outcome w (service_with w u subject message chs) ch = py.Raise e ->
  Forall (fails w (service_with w u subject message chs)) (take i chs) ->
  py.returns
    (NotificationService.send w (service_with w u subject message chs)
       db).1.1
  /\ DeliveryReport.failed_channels
       (NotificationService.get_delivery_report
          (NotificationService.send w (service_with w u subject message chs)
             db).1.2) !! i
     = Some (Channel_name ch)
  /\ (NotificationService.send w (service_with w u subject message chs)
        db).1.1
     = (NotificationService.send w
          (service_with w u subject message (delete i chs)) db).1.1
  /\ DeliveryReport.successful_channel
       (NotificationService.get_delivery_report
          (NotificationService.send w (service_with w u subject message chs)
             db).1.2)
     = DeliveryReport.successful_channel
         (NotificationService.get_delivery_report
            (NotificationService.send w
               (service_with w u subject message (delete i chs)) db).1.2)
  /\ DeliveryReport.failed_channels
       (NotificationService.get_delivery_report
          (NotificationService.send w (service_with w u subject message chs)
             db).1.2)
     = take i
         (DeliveryReport.failed_channels
            (NotificationService.get_delivery_report
               (NotificationService.send w
                  (service_with w u subject message (delete i chs))
                  db).1.2))
       ++ Channel_name ch
          :: drop i
               (DeliveryReport.failed_channels
                  (NotificationService.get_delivery_report
                     (NotificationService.send w
                        (service_with w u subject message (delete i chs))
                        db).1.2))
  /\ (NotificationService.send w (service_with w u subject message chs)
        db).2
     = (NotificationService.send w
          (service_with w u subject message (delete i chs)) db).2.
Proof.
  intros Hch Hraise Hbefore.
  assert (Hlen : length (take i chs) = i).
  { apply length_take_le. apply lookup_lt_Some in Hch. lia. }
  assert (Hf : fails w (service_with w u subject message chs) ch).
  { unfold fails. by rewrite Hraise. }
  pose proof (failing_channel_is_skipped w u subject message db
                (take i chs) ch (drop (S i) chs)) as H.
  rewrite (take_drop_middle chs i ch Hch) in H.
  rewrite <- delete_take_drop in H.
  destruct (H Hbefore Hf) as (Hr & Hs & Hfc & Hle & Hdb). clear H.
  rewrite Hlen in Hfc, Hle. simpl.
  split_and!.
  - apply send_returns.
  - rewrite Hfc. rewrite lookup_app_r by (rewrite length_take; lia).
    rewrite length_take. by replace (i - i `min` _) with 0 by lia.
  - exact Hr.
  - exact Hs.
  - exact Hfc.
  - exact Hdb.
Qed.

(** A first channel that raises, followed by a working email channel:
    the run ends as the run over the email channel alone does, with
    "push" among the failed channels. *)
Lemma raising_channel_is_skipped_witness :
  py.returns
    (NotificationService.send scenario.mail_world
       (service_with scenario.mail_world scenario.user_without_telegram
          "subject" "message" scenario.faulty_first) empty_db).1.1
  /\ DeliveryReport.failed_channels
       (NotificationService.get_delivery_report
          (NotificationService.send scenario.mail_world
             (service_with scenario.mail_world scenario.user_without_telegram
                "subject" "message" scenario.faulty_first) empty_db).1.2)
     !! 0
     = Some "push"
  /\ (NotificationService.send scenario.mail_world
        (service_with scenario.mail_world scenario.user_without_telegram
           "subject" "message" scenario.faulty_first) empty_db).1.1
     = (NotificationService.send scenario.mail_world
          (service_with scenario.mail_world scenario.user_without_telegram
             "subject" "message" (delete 0 scenario.faulty_first))
          empty_db).1.1
  /\ DeliveryReport.successful_channel
       (NotificationService.get_delivery_report
          (NotificationService.send scenario.mail_world
             (service_with scenario.mail_world scenario.user_without_telegram
                "subject" "message" scenario.faulty_first) empty_db).1.2)
     = DeliveryReport.successful_channel
         (NotificationService.get_delivery_report
            (NotificationService.send scenario.mail_world
               (service_with scenario.mail_world
                  scenario.user_without_telegram "subject" "message"
                  (delete 0 scenario.faulty_first)) empty_db).1.2)
  /\ DeliveryReport.failed_channels
       (NotificationService.get_delivery_report
          (NotificationService.send scenario.mail_world
             (service_with scenario.mail_world scenario.user_without_telegram
                "subject" "message" scenario.faulty_first) empty_db).1.2)
     = take 0
         (DeliveryReport.failed_channels
            (NotificationService.get_delivery_report
               (NotificationService.send scenario.mail_world
                  (service_with scenario.mail_world
                     scenario.user_without_telegram "subject" "message"
                     (delete 0 scenario.faulty_first)) empty_db).1.2))
       ++ "push"
          :: drop 0
               (DeliveryReport.failed_channels
                  (NotificationService.get_delivery_report
                     (NotificationService.send scenario.mail_world
                        (service_with scenario.mail_world
                           scenario.user_without_telegram "subject"
                           "message" (delete 0 scenario.faulty_first))
                        empty_db).1.2))
  /\ (NotificationService.send scenario.mail_world
        (service_with scenario.mail_world scenario.user_without_telegram
           "subject" "message" scenario.faulty_first) empty_db).2
     = (NotificationService.send scenario.mail_world
          (service_with scenario.mail_world scenario.user_without_telegram
             "subject" "message" (delete 0 scenario.faulty_first))
          empty_db).2.
Proof.
  exact (raising_channel_is_skipped scenario.mail_world
           scenario.user_without_telegram "subject" "message"
           scenario.faulty_first empty_db 0 _ (py.RuntimeError "boom")
           eq_refl eq_refl (Forall_nil_2 _)).
Defined.

Ltac case_channel :=
  repeat
    (simpl;
     match goal with
     | |- py.returns (py.Return _) => by eexists
     | |- context [match ?x with _ => _ end] => destruct x eqn:?
     end).

(** The same, innermost scrutinee first, keeping the equations. *)
Ltac case_channel_true :=
  repeat
    (simpl;
     match goal with
     | |- py.Return false = _ -> _ => discriminate
     | |- context [match ?x with _ => _ end] =>
       lazymatch x with
       | context [match _ with _ => _ end] => fail
       | _ => destruct x eqn:?
       end
     end).

Lemma EmailChannel_send_returns w self u subject message :
  py.returns (EmailChannel.send w self u subject message).
Proof.
  unfold EmailChannel.send, py.try_except, settings_attr, mbind, result_bind,
    py.bind.
  case_channel.
Qed.

Lemma TwilioSMSChannel_send_returns w self u subject message :
  py.returns (TwilioSMSChannel.send w self u subject message).
Proof.
  unfold TwilioSMSChannel.send, py.try_except, settings_attr, mbind,
    result_bind, py.bind.
  case_channel.
Qed.

Lemma TelegramChannel_send_returns w self u subject message :
  py.returns (TelegramChannel.send w self u subject message).
Proof.
  unfold TelegramChannel.send, TelegramChannel.response_get, py.try_except,
    settings_getattr, mbind, result_bind, py.bind.
  case_channel.
Qed.

(** A channel reports success only when its transport returned: an
    error of the transport or of the configuration comes out as false. *)
Lemma EmailChannel_true_only_if_sent w self u subject message :
  EmailChannel.send w self u subject message = py.Return true ->
  exists from_email n,
    settings w !! "DEFAULT_FROM_EMAIL" = Some from_email
    /\ send_mail w subject message from_email [User.email u] = py.Return n.
Proof.
  unfold EmailChannel.send, py.try_except, settings_attr, mbind, result_bind,
    py.bind.
  case_channel_true.
  all: intros _; eauto.
Qed.

Lemma TwilioSMSChannel_true_only_if_sent w self u subject message :
  TwilioSMSChannel.send w self u subject message = py.Return true ->
  exists the_client body from_ to sid,
    TwilioSMSChannel.client self = Some the_client
    /\ messages_create w the_client body from_ to = py.Return sid.
Proof.
  unfold TwilioSMSChannel.send, py.try_except, settings_attr, mbind,
    result_bind, py.bind.
  case_channel_true.
  all: intros _; eauto 10.
Qed.

Lemma TelegramChannel_true_only_if_sent w self u subject message :
  TelegramChannel.send w self u subject message = py.Return true ->
  exists url payload response d v,
    requests_post w url payload 10 = py.Return response
    /\ status_code response = 200%Z
    /\ response_json response = py.Return (JDict d)
    /\ d !! "ok" = Some v /\ json_truthy v = true.
Proof.
  unfold TelegramChannel.send, TelegramChannel.response_get, py.try_except,
    settings_getattr, mbind, result_bind, py.bind.
  case_channel_true.
  all: intros _; simpl in *.
  all: match goal with
       | H : from_option json_truthy false (?d !! "ok") = true |- _ =>
         destruct (d !! "ok") as [v|] eqn:Hok; simpl in H; [|discriminate]
       end.
  all: do 5 eexists; split_and!; eauto; by apply Z.eqb_eq.
Qed.

(** A channel that returned true has been through every step. *)
Lemma EmailChannel_true_implies_sent w self u subject message :
  EmailChannel.send w self u subject message = py.Return true ->
  email_was_sent w u subject message.
Proof.
  unfold EmailChannel.send, email_was_sent, py.try_except, settings_attr,
    settings_getattr, mbind, result_bind, py.bind.
  case_channel_true.
  all: intros _; simpl in *.
  all: repeat match goal with
              | H : negb _ = false |- _ => apply negb_false_iff in H
              | H : _ && _ = true |- _ => apply andb_true_iff in H as [? ?]
              end.
  all: split_and!; eauto.
Qed.

Lemma TwilioSMSChannel_true_implies_sent w self u subject message :
  TwilioSMSChannel.send w self u subject message = py.Return true ->
  sms_was_sent w self u subject message.
Proof.
  unfold TwilioSMSChannel.send, sms_was_sent, py.try_except, settings_attr,
    mbind, result_bind, py.bind.
  case_channel_true.
  all: intros _; simpl in *.
  all: repeat match goal with
              | H : negb _ = false |- _ => apply negb_false_iff in H
              end.
  all: do 5 eexists; split_and!; eauto.
  all: match goal with
       | H : py.truthy ?x = _
         |- context [if py.truthy ?x then _ else _] => by rewrite H
       end.
Qed.

Lemma TelegramChannel_true_implies_sent w self u subject message :
  TelegramChannel.send w self u subject message = py.Return true ->
  telegram_was_sent w u subject message.
Proof.
  unfold TelegramChannel.send, telegram_was_sent,
    TelegramChannel.response_get, py.try_except, settings_getattr, mbind,
    result_bind, py.bind.
  destruct (User.userprofile u) as [p|]; [|discriminate].
  destruct (UserProfile.telegram_chat_id p) as [chat|] eqn:Hchat;
    [|discriminate].
  simpl.
  destruct (py.truthy chat) eqn:Hc; [|discriminate].
  destruct (settings w !! "TELEGRAM_BOT_TOKEN") as [token|] eqn:Htok;
    [|discriminate].
  simpl.
  destruct (py.truthy token) eqn:Ht; [|discriminate].
  simpl.
  destruct (requests_post w _ _ 10) as [r|e] eqn:Hpost;
    [|destruct e; discriminate].
  destruct (response_json r) as [[d|]|e] eqn:Hjson; simpl.
  - destruct (Z.eqb (status_code r) 200) eqn:Hst; simpl; [|discriminate].
    destruct (d !! "ok") as [v|] eqn:Hok; simpl; [|discriminate].
    destruct (json_truthy v) eqn:Hv; [|discriminate].
    intros _. exists p, chat, token, r, d, v.
    split_and!; try done. by apply Z.eqb_eq.
  - destruct (Z.eqb (status_code r) 200); discriminate.
  - destruct e; discriminate.
Qed.

(** C5.  For each of the three channels, every recipient, subject and
    message, and every behaviour of the settings and of the transports,
    [send] returns a boolean, so that nothing raised inside it reaches
    the caller; and the boolean is true only when the contact data and
    the settings were there and the transport call itself returned (for
    Telegram, with status 200 and a true 'ok').  Whatever else happens,
    a missing setting, a client that was never built, a transport that
    raises, comes out as false. *)
Theorem channel_send_never_raises w (email : EmailChannel.t)
    (sms : TwilioSMSChannel.t) (telegram : TelegramChannel.t)
    u subject message :
  (py.returns (send w telegram u subject message)
   /\ (send w telegram u subject message = py.Return true ->
       telegram_was_sent w u subject message))
  /\ (py.returns (send w email u subject message)
      /\ (send w email u subject message = py.Return true ->
          email_was_sent w u subject message))
  /\ (py.returns (send w sms u subject message)
      /\ (send w sms u subject message = py.Return true ->
          sms_was_sent w sms u subject message)).
Proof.
  split_and!.
  - apply TelegramChannel_send_returns.
  - apply TelegramChannel_true_implies_sent.
  - apply EmailChannel_send_returns.
  - apply EmailChannel_true_implies_sent.
  - apply TwilioSMSChannel_send_returns.
  - apply TwilioSMSChannel_true_implies_sent.
Qed.

(** Everything configured, a recipient with every kind of address, and
    three transports that raise: each channel returns false. *)
Lemma channel_send_never_raises_witness :
  send scenario.broken_transport_world TelegramChannel.Build
    scenario.user_with_everything "subject" "message" = py.Return false
  /\ send scenario.broken_transport_world EmailChannel.Build
       scenario.user_with_everything "subject" "message" = py.Return false
  /\ send scenario.broken_transport_world
       (TwilioSMSChannel.init scenario.broken_transport_world)
       scenario.user_with_everything "subject" "message" = py.Return false.
Proof.
  destruct (channel_send_never_raises scenario.broken_transport_world
              EmailChannel.Build
              (TwilioSMSChannel.init scenario.broken_transport_world)
              TelegramChannel.Build scenario.user_with_everything
              "subject" "message")
    as (([[|] Ht] & Ht') & ([[|] He] & He') & ([[|] Hs] & Hs')).
  all: try (exfalso;
            destruct (Ht' Ht)
              as (? & ? & ? & ? & ? & ? & _ & _ & _ & _ & _ & H & _);
            discriminate H).
  all: try (exfalso;
            destruct (He' He) as (_ & _ & _ & _ & ? & ? & _ & H);
            discriminate H).
  all: try (exfalso;
            destruct (Hs' Hs) as (? & ? & ? & ? & ? & _ & _ & _ & _ & _ & H);
            discriminate H).
  by split_and!.
Defined.

(** ** The delivery record *)

(** What one run writes: the INSERT of the pending record and exactly one
    UPDATE of the same row, which either marks it failed and names no
    channel, or marks it sent and names the channel that delivered.
    Neither image has [sent_at] set. *)
Lemma journal_of_run w s db :
  exists n0 n1,
    journal (NotificationService.send w s db).2
    = journal db ++ [(length (rows db), n0); (length (rows db), n1)]
    /\ rows (NotificationService.send w s db).2 !! length (rows db) = Some n1
    /\ Notification.status n0 = "pending"
    /\ Notification.sent_via n0 = ""
    /\ Notification.sent_at n0 = None
    /\ Notification.sent_at n1 = None
    /\ ((NotificationService.send w s db).1.1 = py.Return false
        /\ Notification.status n1 = "failed"
        /\ Notification.sent_via n1 = ""
        \/ (NotificationService.send w s db).1.1 = py.Return true
           /\ Notification.status n1 = "sent"
           /\ exists ch, ch ∈ NotificationService.channels s
                         /\ Notification.sent_via n1 = Channel_name ch).
Proof.
  assert (Hrow : forall (l : list Notification.t) a b,
             <[length l := b]> (l ++ [a]) !! length l = Some b).
  { intros l a b. apply list_lookup_insert_eq. rewrite length_app. simpl. lia. }
  destruct (first_success_split w s (NotificationService.channels s))
    as [Hall | (before & ch & after & Hchs & Hall & Hd)];
    unfold NotificationService.send.
  - rewrite (run_send_all_fail w s db Hall). simpl.
    do 2 eexists. rewrite <- app_assoc. simpl.
    split_and!; [reflexivity | apply Hrow | reflexivity ..|].
    left. by split_and!.
  - rewrite (run_send_first_success w s db _ _ _ Hchs Hall Hd). simpl.
    do 2 eexists. rewrite <- app_assoc. simpl.
    split_and!; [reflexivity | apply Hrow | reflexivity ..|].
    right. split_and!; [reflexivity | reflexivity |].
    exists ch. split; [|reflexivity].
    rewrite Hchs. apply elem_of_app. right. apply elem_of_cons. by left.
Qed.

(** The same for any channel list without an empty name: every image of
    the record ever written is sent exactly when it names a channel. *)
Lemma sent_iff_via_of_named_channels w s db :
  Forall (fun ch => Channel_name ch <> "") (NotificationService.channels s) ->
  exists n0 n1,
    journal (NotificationService.send w s db).2
    = journal db ++ [(length (rows db), n0); (length (rows db), n1)]
    /\ rows (NotificationService.send w s db).2 !! length (rows db) = Some n1
    /\ sent_iff_via n0 /\ sent_iff_via n1.
Proof.
  intros Hnames.
  destruct (journal_of_run w s db)
    as (n0 & n1 & Hj & Hr & Hs0 & Hv0 & _ & _ & Hn1).
  exists n0, n1. unfold sent_iff_via. split_and!; [exact Hj | exact Hr | |].
  - rewrite Hs0, Hv0. split; [discriminate | congruence].
  - destruct Hn1 as [(_ & Hs1 & Hv1) | (_ & Hs1 & ch & Hin & Hv1)].
    + rewrite Hs1, Hv1. split; [discriminate | congruence].
    + rewrite Hs1, Hv1. split; [|reflexivity].
      intros _. by apply (proj1 (Forall_forall _ _) Hnames ch).
Qed.

(** C4.  For every run of the service as [__init__] builds it, the record
    is written twice, once at creation and once at the end, and every
    image written, the final row included, has status 'sent' exactly when
    [sent_via] is non-empty: the two fields change in the same UPDATE. *)
Theorem record_sent_iff_sent_via w u subject message db :
  exists n0 n1,
    journal (NotificationService.send w
               (NotificationService.init w u subject message) db).2
    = journal db ++ [(length (rows db), n0); (length (rows db), n1)]
    /\ rows (NotificationService.send w
               (NotificationService.init w u subject message) db).2
       !! length (rows db) = Some n1
    /\ sent_iff_via n0 /\ sent_iff_via n1.
Proof.
  apply sent_iff_via_of_named_channels. simpl.
  repeat constructor; discriminate.
Qed.

(** C3.  In the run of test_basic_fallback where email delivers, [send()]
    returns true and the row is updated to status 'sent' with
    [sent_via] 'email', yet its [sent_at] is still null, not the current
    time: no statement of [send] assigns the field. *)
Theorem sent_at_left_unset :
  (NotificationService.send scenario.mail_world
     (NotificationService.init scenario.mail_world
        scenario.user_without_telegram "Test 2" "Should use Email")
     empty_db).1.1 = py.Return true
  /\ exists n,
       rows (NotificationService.send scenario.mail_world
               (NotificationService.init scenario.mail_world
                  scenario.user_without_telegram "Test 2" "Should use Email")
               empty_db).2 !! 0 = Some n
       /\ Notification.status n = "sent"
       /\ Notification.sent_via n = "email"
       /\ Notification.sent_at n = None
       /\ Notification.sent_at n <> Some (now scenario.mail_world).
Proof.
  split; [vm_compute; reflexivity|].
  eexists. split; [vm_compute; reflexivity|].
  split_and!; [reflexivity | reflexivity | reflexivity | discriminate].
Qed.

(** No run, successful or not, ever writes [sent_at]. *)
Lemma sent_at_never_written w s db n :
  rows (NotificationService.send w s db).2 !! length (rows db) = Some n ->
  Notification.sent_at n = None.
Proof.
  destruct (journal_of_run w s db) as (n0 & n1 & _ & Hr & _ & _ & _ & Hat & _).
  rewrite Hr. by intros [= <-].
Qed.

(** ** Channel names *)

Lemma TelegramChannel_without_chat_id w self u subject message :
  has_chat_id u = false ->
  TelegramChannel.send w self u subject message = py.Return false.
Proof.
  unfold has_chat_id, TelegramChannel.send. intros Hno.
  destruct (User.userprofile u) as [p|]; [|reflexivity].
  by rewrite Hno.
Qed.

(** C8, as the code has it.  The name of the chat-bot channel is
    "telegram".  When the recipient has no chat identifier and the email
    channel delivers, [send()] returns true and the report has [success]
    true, [failed_channels] equal to ["telegram"] and
    [successful_channel] equal to "email". *)
Theorem telegram_falls_back_to_email w u subject message db :
  has_chat_id u = false ->
  send w EmailChannel.Build u subject message = py.Return true ->
  channel_name TelegramChannel.Build = "telegram"
  /\ (NotificationService.send w
        (NotificationService.init w u subject message) db).1.1
     = py.Return true
  /\ DeliveryReport.success
       (NotificationService.get_delivery_report
          (NotificationService.send w
             (NotificationService.init w u subject message) db).1.2) = true
  /\ DeliveryReport.failed_channels
       (NotificationService.get_delivery_report
          (NotificationService.send w
             (NotificationService.init w u subject message) db).1.2)
     = ["telegram"]
  /\ DeliveryReport.successful_channel
       (NotificationService.get_delivery_report
          (NotificationService.send w
             (NotificationService.init w u subject message) db).1.2)
     = Some "email".
Proof.
  intros Hno Hmail.
  set (s0 := NotificationService.init w u subject message).
  assert (Hall : Forall (fails w s0) [channel_of TelegramChannel.Build]).
  { repeat constructor. unfold fails, outcome. simpl.
    by rewrite TelegramChannel_without_chat_id. }
  assert (Hd : delivers w s0 (channel_of EmailChannel.Build)).
  { unfold delivers, outcome. simpl. simpl in Hmail. by rewrite Hmail. }
  unfold NotificationService.send.
  rewrite (run_send_first_success w s0 db
             [channel_of TelegramChannel.Build]
             (channel_of EmailChannel.Build)
             [channel_of (TwilioSMSChannel.init w)] eq_refl Hall Hd).
  by split_and!.
Qed.

Lemma telegram_falls_back_to_email_witness :
  channel_name TelegramChannel.Build = "telegram"
  /\ (NotificationService.send scenario.mail_world
        (NotificationService.init scenario.mail_world
           scenario.user_without_telegram "Test 2" "Should use Email")
        empty_db).1.1
     = py.Return true
  /\ DeliveryReport.success
       (NotificationService.get_delivery_report
          (NotificationService.send scenario.mail_world
             (NotificationService.init scenario.mail_world
                scenario.user_without_telegram "Test 2" "Should use Email")
             empty_db).1.2) = true
  /\ DeliveryReport.failed_channels
       (NotificationService.get_delivery_report
          (NotificationService.send scenario.mail_world
             (NotificationService.init scenario.mail_world
                scenario.user_without_telegram "Test 2" "Should use Email")
             empty_db).1.2)
     = ["telegram"]
  /\ DeliveryReport.successful_channel
       (NotificationService.get_delivery_report
          (NotificationService.send scenario.mail_world
             (NotificationService.init scenario.mail_world
                scenario.user_without_telegram "Test 2" "Should use Email")
             empty_db).1.2)
     = Some "email".
Proof.
  apply (telegram_falls_back_to_email scenario.mail_world
           scenario.user_without_telegram "Test 2" "Should use Email"
           empty_db).
  - reflexivity.
  - vm_compute. reflexivity.
Defined.

(** C8 as the specification words it does not hold: in that very
    scenario the chat-bot channel is not called "chat", and the failed
    channels are not ["chat"]. *)
Lemma chat_name_counterexample :
  ~ (channel_name TelegramChannel.Build = "chat"
     \/ DeliveryReport.failed_channels
          (NotificationService.get_delivery_report
             (NotificationService.send scenario.mail_world
                (NotificationService.init scenario.mail_world
                   scenario.user_without_telegram "Test 2"
                   "Should use Email")
                empty_db).1.2)
        = ["chat"]).
Proof.
  intros [H | H]; vm_compute in H; discriminate H.
Qed.

(** ** The task *)

Ltac run_task :=
  unfold tasks.send_notification_task, tasks.service_send, tasks.retry,
    tasks.User_objects_get, tasks.apply_async, py.try_except_st, mbind,
    stateful_bind, result_bind, py.bind_st, py.bind, py.call, py.update,
    py.raise, py.ret_st; simpl.

(** The task when the user does not exist. *)
Lemma task_user_not_found w request user_id subject message s :
  users w !! user_id = None ->
  tasks.send_notification_task w request user_id subject message s
  = (py.Return (tasks.status_error "user_not_found" user_id), s).
Proof.
  intros Hnone. run_task. by rewrite Hnone.
Qed.

(** C9.  For every invocation of the task whose user id resolves to no
    user, the task returns the 'user_not_found' error, a terminal result,
    and leaves the broker and the database as they were: no retry is
    sent and no record is created. *)
Theorem unknown_user_is_terminal w request user_id subject message s :
  users w !! user_id = None ->
  (tasks.send_notification_task w request user_id subject message s).1
  = py.Return (tasks.status_error "user_not_found" user_id)
  /\ tasks.broker
       (tasks.send_notification_task w request user_id subject message s).2
     = tasks.broker s
  /\ tasks.db
       (tasks.send_notification_task w request user_id subject message s).2
     = tasks.db s.
Proof.
  intros Hnone.
  by rewrite (task_user_not_found w request user_id subject message s Hnone).
Qed.

(** User 7 is not in the table of [scenario.dead_world]. *)
Lemma unknown_user_is_terminal_witness :
  (tasks.send_notification_task scenario.dead_world {| tasks.retries := 0 |}
     7 "subject" "message" {| tasks.db := empty_db; tasks.broker := [] |}).1
  = py.Return (tasks.status_error "user_not_found" 7)
  /\ tasks.broker
       (tasks.send_notification_task scenario.dead_world
          {| tasks.retries := 0 |} 7 "subject" "message"
          {| tasks.db := empty_db; tasks.broker := [] |}).2
     = []
  /\ tasks.db
       (tasks.send_notification_task scenario.dead_world
          {| tasks.retries := 0 |} 7 "subject" "message"
          {| tasks.db := empty_db; tasks.broker := [] |}).2
     = empty_db.
Proof.
  apply (unknown_user_is_terminal scenario.dead_world {| tasks.retries := 0 |}
           7 "subject" "message"
           {| tasks.db := empty_db; tasks.broker := [] |}).
  reflexivity.
Defined.

(** The task when the user exists and a channel delivers. *)
Lemma task_success w request user_id subject message s u :
  users w !! user_id = Some u ->
  (NotificationService.send w
     (NotificationService.init w u subject message) (tasks.db s)).1.1
  = py.Return true ->
  exists channel d,
    tasks.send_notification_task w request user_id subject message s
    = (py.Return (tasks.status_success user_id (User.username u) channel
                    subject),
       {| tasks.db := d; tasks.broker := tasks.broker s |}).
Proof.
  intros Hu Hsend. run_task. rewrite Hu. simpl.
  destruct (NotificationService.send w _ (tasks.db s)) as [[r svc] d].
  simpl in Hsend. subst r. simpl. eauto.
Qed.

(** The task when the user exists, every channel failed and retries
    remain: the task is sent twice, once by the [retry] of the [else]
    branch and once more by the [retry] of the handler that catches the
    Retry exception of the first. *)
Lemma task_total_failure_retries w request user_id subject message s u :
  users w !! user_id = Some u ->
  (NotificationService.send w
     (NotificationService.init w u subject message) (tasks.db s)).1.1
  = py.Return false ->
  tasks.retries request + 1 <= tasks.max_retries ->
  exists d,
    tasks.send_notification_task w request user_id subject message s
    = (py.Raise (py.Retry 30),
       {| tasks.db := d;
          tasks.broker :=
            tasks.broker s
            ++ [ {| tasks.sig_user_id := user_id;
                    tasks.sig_subject := subject;
                    tasks.sig_message := message;
                    tasks.sig_retries := tasks.retries request + 1;
                    tasks.sig_countdown := 60 |};
                 {| tasks.sig_user_id := user_id;
                    tasks.sig_subject := subject;
                    tasks.sig_message := message;
                    tasks.sig_retries := tasks.retries request + 1;
                    tasks.sig_countdown := 30 |} ] |}).
Proof.
  intros Hu Hsend Hleft. run_task. rewrite Hu. simpl.
  destruct (NotificationService.send w _ (tasks.db s)) as [[r svc] d].
  simpl in Hsend. subst r. simpl.
  rewrite bool_decide_eq_false_2 by lia. simpl.
  rewrite <- app_assoc. simpl. eauto.
Qed.

(** The task when the user exists, every channel failed and the retries
    are used up: nothing is sent and the exhaustion is the result. *)
Lemma task_total_failure_exhausted w request user_id subject message s u :
  users w !! user_id = Some u ->
  (NotificationService.send w
     (NotificationService.init w u subject message) (tasks.db s)).1.1
  = py.Return false ->
  tasks.max_retries < tasks.retries request + 1 ->
  exists d,
    tasks.send_notification_task w request user_id subject message s
    = (py.Return (tasks.status_error "max_retries_exceeded" user_id),
       {| tasks.db := d; tasks.broker := tasks.broker s |}).
Proof.
  intros Hu Hsend Hout. run_task. rewrite Hu. simpl.
  destruct (NotificationService.send w _ (tasks.db s)) as [[r svc] d].
  simpl in Hsend. subst r. simpl.
  rewrite bool_decide_eq_true_2 by lia. simpl. eauto.
Qed.

(** Whatever happens, an execution leaves the broker as it was or adds
    the two messages above, and the latter only while retries remain. *)
Lemma task_broker_cases w request user_id subject message s :
  tasks.broker
    (tasks.send_notification_task w request user_id subject message s).2
  = tasks.broker s
  \/ tasks.retries request + 1 <= tasks.max_retries
     /\ map (fun sig => (tasks.sig_retries sig, tasks.sig_countdown sig))
          (drop (length (tasks.broker s))
             (tasks.broker
                (tasks.send_notification_task w request user_id subject
                   message s).2))
        = [ (tasks.retries request + 1, 60%Z);
            (tasks.retries request + 1, 30%Z) ].
Proof.
  destruct (users w !! user_id) as [u|] eqn:Hu.
  - destruct (send_returns w (NotificationService.init w u subject message)
                (tasks.db s)) as [[|] Hb].
    + destruct (task_success w request user_id subject message s u Hu Hb)
        as (c & d & ->). by left.
    + destruct (decide (tasks.retries request + 1 <= tasks.max_retries))
        as [Hleft | Hout].
      * destruct (task_total_failure_retries w request user_id subject
                    message s u Hu Hb Hleft) as (d & ->).
        right. split; [exact Hleft|]. simpl.
        by rewrite drop_app_length.
      * destruct (task_total_failure_exhausted w request user_id subject
                    message s u Hu Hb ltac:(lia)) as (d & ->). by left.
  - rewrite (task_user_not_found w request user_id subject message s Hu).
    by left.
Qed.

(** No message ever carries a retry count above [max_retries]. *)
Lemma retry_count_bounded w request user_id subject message s :
  Forall (fun sig => tasks.sig_retries sig <= tasks.max_retries)
    (tasks.broker s) ->
  Forall (fun sig => tasks.sig_retries sig <= tasks.max_retries)
    (tasks.broker
       (tasks.send_notification_task w request user_id subject message s).2).
Proof.
  intros Hold.
  destruct (users w !! user_id) as [u|] eqn:Hu.
  - destruct (send_returns w (NotificationService.init w u subject message)
                (tasks.db s)) as [[|] Hb].
    + by destruct (task_success w request user_id subject message s u Hu Hb)
        as (c & d & ->).
    + destruct (decide (tasks.retries request + 1 <= tasks.max_retries))
        as [Hleft | Hout].
      * destruct (task_total_failure_retries w request user_id subject
                    message s u Hu Hb Hleft) as (d & ->).
        simpl. apply Forall_app. split; [exact Hold|].
        constructor; [simpl; lia|]. constructor; [simpl; lia|]. constructor.
      * by destruct (task_total_failure_exhausted w request user_id subject
                       message s u Hu Hb ltac:(lia)) as (d & ->).
  - by rewrite (task_user_not_found w request user_id subject message s Hu).
Qed.

(** C10.  A recipient whom no channel reaches, a first execution with
    retry count 0: the execution ends with the Retry exception of the
    handler and has put two messages on the broker, both with retry count
    1, one delayed by 60 and one by 30 seconds.  A worker that runs the
    task to the end executes it 15 times, not 4; the eight executions
    with retry count 3 all end in the 'max_retries_exceeded' error and
    send nothing more. *)
Theorem total_failure_is_retried_twice :
  (tasks.execute scenario.dead_world
     (tasks.delay 2 "subject" "message") empty_db).1
  = py.Raise (py.Retry 30)
  /\ map (fun sig => (tasks.sig_retries sig, tasks.sig_countdown sig))
       (tasks.broker
          (tasks.execute scenario.dead_world
             (tasks.delay 2 "subject" "message") empty_db).2)
     = [(1, 60%Z); (1, 30%Z)]
  /\ length (tasks.worker 100 scenario.dead_world
               [tasks.delay 2 "subject" "message"] empty_db).1.1 = 15
  /\ (tasks.worker 100 scenario.dead_world
        [tasks.delay 2 "subject" "message"] empty_db).1.2 = []
  /\ map snd
       (filter (fun run => tasks.sig_retries run.1 = 3)
          (tasks.worker 100 scenario.dead_world
             [tasks.delay 2 "subject" "message"] empty_db).1.1)
     = replicate 8
         (py.Return (tasks.status_error "max_retries_exceeded" 2)).
Proof.
  split_and!; vm_compute; reflexivity.
Qed.

(** * Further properties of the code *)

(** ** notifications/service.py *)

(** The run of [send] from any service object, fresh or not: the row
    written, the value returned and the two attributes afterwards. *)
Lemma send_cases w s db :
  (exists n0,
     Forall (fails w s) (NotificationService.channels s)
     /\ NotificationService.send w s db
        = (py.Return false,
           NotificationService.self
             (record_failures
                (map Channel_name (NotificationService.channels s))
                (initial_frame w s db)),
           {| rows := <[length (rows db) :=
                          Notification.set_status "failed" n0]>
                        (rows db ++ [n0]);
              journal := (journal db ++ [(length (rows db), n0)])
                         ++ [(length (rows db),
                              Notification.set_status "failed" n0)] |})
     /\ n0 = Notification.Build (NotificationService.user s)
               (NotificationService.subject s)
               (NotificationService.message s) "pending" "" (now w) None)
  \/ (exists n0 before ch after,
        NotificationService.channels s = before ++ ch :: after
        /\ Forall (fails w s) before
        /\ delivers w s ch
        /\ NotificationService.send w s db
           = (py.Return true,
              NotificationService.self
                (record_delivery (Channel_name ch)
                   (record_failures (map Channel_name before)
                      (initial_frame w s db))),
              {| rows := <[length (rows db) :=
                             Notification.set_sent_via (Channel_name ch)
                               (Notification.set_status "sent" n0)]>
                           (rows db ++ [n0]);
                 journal := (journal db ++ [(length (rows db), n0)])
                            ++ [(length (rows db),
                                 Notification.set_sent_via (Channel_name ch)
                                   (Notification.set_status "sent" n0))] |})
        /\ n0 = Notification.Build (NotificationService.user s)
                  (NotificationService.subject s)
                  (NotificationService.message s) "pending" "" (now w) None).
Proof.
  destruct (first_success_split w s (NotificationService.channels s))
    as [Hall | (before & ch & after & Hchs & Hall & Hd)];
    unfold NotificationService.send.
  - left. eexists. split; [exact Hall|].
    rewrite (run_send_all_fail w s db Hall). by split.
  - right. eexists. exists before, ch, after.
    split_and!; [exact Hchs | exact Hall | exact Hd | | reflexivity].
    by rewrite (run_send_first_success w s db _ _ _ Hchs Hall Hd).
Qed.

Lemma take_updated_last {A : Type} (l : list A) (a b : A) :
  take (length l) (<[length l := b]> (l ++ [a])) = l.
Proof.
  rewrite take_insert_ge by lia. by rewrite take_app_length.
Qed.

Lemma lookup_updated_last {A : Type} (l : list A) (a b : A) :
  <[length l := b]> (l ++ [a]) !! length l = Some b.
Proof.
  apply list_lookup_insert_eq. rewrite length_app. simpl. lia.
Qed.

(** X1.  Channels that stand behind the first delivering channel have no
    part in the run: whatever they are, the value returned, the failed
    channels, the successful channel and the database come out the
    same. *)
Theorem send_ignores_later_channels w s db before ch after after' :
  Forall (fails w s) before ->
  delivers w s ch ->
  (NotificationService.send w
     (NotificationService.set_channels (before ++ ch :: after) s) db).1.1
  = (NotificationService.send w
       (NotificationService.set_channels (before ++ ch :: after') s) db).1.1
  /\ NotificationService.get_delivery_report
       (NotificationService.send w
          (NotificationService.set_channels (before ++ ch :: after) s) db).1.2
     = NotificationService.get_delivery_report
         (NotificationService.send w
            (NotificationService.set_channels (before ++ ch :: after') s)
            db).1.2
  /\ (NotificationService.send w
        (NotificationService.set_channels (before ++ ch :: after) s) db).2
     = (NotificationService.send w
          (NotificationService.set_channels (before ++ ch :: after') s) db).2.
Proof.
  intros Hall Hd. unfold NotificationService.send.
  rewrite (run_send_first_success w
             (NotificationService.set_channels (before ++ ch :: after) s) db
             before ch after eq_refl Hall Hd).
  rewrite (run_send_first_success w
             (NotificationService.set_channels (before ++ ch :: after') s) db
             before ch after' eq_refl Hall Hd).
  by split_and!.
Qed.

(** With or without the SMS channel behind it, the delivering email
    channel ends the run the same way. *)
Lemma send_ignores_later_channels_witness :
  (NotificationService.send scenario.mail_world
     (NotificationService.set_channels
        ([channel_of TelegramChannel.Build] ++ channel_of EmailChannel.Build
         :: [channel_of (TwilioSMSChannel.init scenario.mail_world)])
        (NotificationService.init scenario.mail_world
           scenario.user_without_telegram "s" "m")) empty_db).1.1
  = (NotificationService.send scenario.mail_world
       (NotificationService.set_channels
          ([channel_of TelegramChannel.Build] ++ channel_of EmailChannel.Build
           :: [])
          (NotificationService.init scenario.mail_world
             scenario.user_without_telegram "s" "m")) empty_db).1.1
  /\ NotificationService.get_delivery_report
       (NotificationService.send scenario.mail_world
          (NotificationService.set_channels
             ([channel_of TelegramChannel.Build]
              ++ channel_of EmailChannel.Build
              :: [channel_of (TwilioSMSChannel.init scenario.mail_world)])
             (NotificationService.init scenario.mail_world
                scenario.user_without_telegram "s" "m")) empty_db).1.2
     = NotificationService.get_delivery_report
         (NotificationService.send scenario.mail_world
            (NotificationService.set_channels
               ([channel_of TelegramChannel.Build]
                ++ channel_of EmailChannel.Build :: [])
               (NotificationService.init scenario.mail_world
                  scenario.user_without_telegram "s" "m")) empty_db).1.2
  /\ (NotificationService.send scenario.mail_world
        (NotificationService.set_channels
           ([channel_of TelegramChannel.Build]
            ++ channel_of EmailChannel.Build
            :: [channel_of (TwilioSMSChannel.init scenario.mail_world)])
           (NotificationService.init scenario.mail_world
              scenario.user_without_telegram "s" "m")) empty_db).2
     = (NotificationService.send scenario.mail_world
          (NotificationService.set_channels
             ([channel_of TelegramChannel.Build]
              ++ channel_of EmailChannel.Build :: [])
             (NotificationService.init scenario.mail_world
                scenario.user_without_telegram "s" "m")) empty_db).2.
Proof.
  apply (send_ignores_later_channels scenario.mail_world
           (NotificationService.init scenario.mail_world
              scenario.user_without_telegram "s" "m")
           empty_db [channel_of TelegramChannel.Build]
           (channel_of EmailChannel.Build)
           [channel_of (TwilioSMSChannel.init scenario.mail_world)] []).
  - repeat constructor.
  - vm_compute. reflexivity.
Defined.

(** X2.  [send] does not reset the service object.  On a service that
    was used before, a run in which every channel fails returns false,
    appends the channel names behind the failures already listed, and
    leaves [last_successful_channel] as it was: the report goes on
    saying [success] when an earlier run had succeeded. *)
Theorem send_accumulates_on_reuse w s db :
  Forall (fails w s) (NotificationService.channels s) ->
  (NotificationService.send w s db).1.1 = py.Return false
  /\ NotificationService.failed_channels (NotificationService.send w s db).1.2
     = NotificationService.failed_channels s
       ++ map Channel_name (NotificationService.channels s)
  /\ NotificationService.last_successful_channel
       (NotificationService.send w s db).1.2
     = NotificationService.last_successful_channel s
  /\ DeliveryReport.success
       (NotificationService.get_delivery_report
          (NotificationService.send w s db).1.2)
     = DeliveryReport.success (NotificationService.get_delivery_report s).
Proof.
  intros Hall. unfold NotificationService.send.
  rewrite (run_send_all_fail w s db Hall). by split_and!.
Qed.

(** The service that delivered by email in [scenario.mail_world], sent
    once more when nothing works: false is returned, "telegram" is listed
    twice, and the report still says success. *)
Lemma send_accumulates_on_reuse_witness :
  let s := (NotificationService.send scenario.mail_world
              (NotificationService.init scenario.mail_world
                 scenario.user_without_telegram "s" "m") empty_db).1.2 in
  (NotificationService.send scenario.dead_world s empty_db).1.1
  = py.Return false
  /\ NotificationService.failed_channels
       (NotificationService.send scenario.dead_world s empty_db).1.2
     = ["telegram"; "telegram"; "email"; "sms"]
  /\ NotificationService.last_successful_channel
       (NotificationService.send scenario.dead_world s empty_db).1.2
     = Some "email"
  /\ DeliveryReport.success
       (NotificationService.get_delivery_report
          (NotificationService.send scenario.dead_world s empty_db).1.2)
     = true.
Proof.
  intros s.
  assert (H : Forall (fails scenario.dead_world s)
                (NotificationService.channels s)).
  { repeat constructor; vm_compute; reflexivity. }
  exact (send_accumulates_on_reuse scenario.dead_world s empty_db H).
Defined.

(** X3.  Every run adds exactly one row to the table and touches no row
    that was there before.  The new row carries the recipient, subject
    and message of the service and the creation time; [sent_at] is
    null. *)
Theorem send_creates_one_row w s db :
  length (rows (NotificationService.send w s db).2) = S (length (rows db))
  /\ take (length (rows db)) (rows (NotificationService.send w s db).2)
     = rows db
  /\ exists n,
       rows (NotificationService.send w s db).2 !! length (rows db) = Some n
       /\ Notification.user n = NotificationService.user s
       /\ Notification.subject n = NotificationService.subject s
       /\ Notification.message n = NotificationService.message s
       /\ Notification.created_at n = now w
       /\ Notification.sent_at n = None.
Proof.
  destruct (send_cases w s db)
    as [(n0 & _ & -> & ->) | (n0 & before & ch & after & _ & _ & _ & -> & ->)];
    simpl.
  - split_and!.
    + rewrite length_insert, length_app. simpl. lia.
    + apply take_updated_last.
    + eexists. split; [apply lookup_updated_last|]. by split_and!.
  - split_and!.
    + rewrite length_insert, length_app. simpl. lia.
    + apply take_updated_last.
    + eexists. split; [apply lookup_updated_last|]. by split_and!.
Qed.

(** X4.  On a fresh service, whatever its channels, the value [send()]
    returns, the report and the row agree: the value returned is the
    report's [success]; the row is 'sent' and names the report's
    [successful_channel] when it is true, and is 'failed' and names
    nothing when it is false. *)
Theorem send_report_and_row_agree w u subject message chs db :
  (NotificationService.send w (service_with w u subject message chs) db).1.1
  = py.Return
      (DeliveryReport.success
         (NotificationService.get_delivery_report
            (NotificationService.send w
               (service_with w u subject message chs) db).1.2))
  /\ exists n,
       rows (NotificationService.send w
               (service_with w u subject message chs) db).2
       !! length (rows db) = Some n
       /\ Notification.status n
          = (if DeliveryReport.success
                  (NotificationService.get_delivery_report
                     (NotificationService.send w
                        (service_with w u subject message chs) db).1.2)
             then "sent" else "failed")
       /\ Notification.sent_via n
          = default ""
              (DeliveryReport.successful_channel
                 (NotificationService.get_delivery_report
                    (NotificationService.send w
                       (service_with w u subject message chs) db).1.2)).
Proof.
  destruct (send_cases w (service_with w u subject message chs) db)
    as [(n0 & _ & -> & ->) | (n0 & before & ch & after & _ & _ & _ & -> & ->)];
    simpl.
  - split; [reflexivity|].
    eexists. split; [apply lookup_updated_last|]. by split.
  - split; [reflexivity|].
    eexists. split; [apply lookup_updated_last|]. by split.
Qed.

(** X5.  On a fresh service the failed channels are an initial segment of
    the channel names, in priority order; the number of channels
    attempted never exceeds the number of channels; and a run that does
    not succeed has tried them all. *)
Theorem failed_channels_are_a_prefix w u subject message chs db :
  DeliveryReport.failed_channels
    (NotificationService.get_delivery_report
       (NotificationService.send w
          (service_with w u subject message chs) db).1.2)
  = map Channel_name
      (take
         (length
            (DeliveryReport.failed_channels
               (NotificationService.get_delivery_report
                  (NotificationService.send w
                     (service_with w u subject message chs) db).1.2)))
         chs)
  /\ DeliveryReport.total_channels_attempted
       (NotificationService.get_delivery_report
          (NotificationService.send w
             (service_with w u subject message chs) db).1.2)
     <= length chs
  /\ (DeliveryReport.success
        (NotificationService.get_delivery_report
           (NotificationService.send w
              (service_with w u subject message chs) db).1.2) = true
      \/ length
           (DeliveryReport.failed_channels
              (NotificationService.get_delivery_report
                 (NotificationService.send w
                    (service_with w u subject message chs) db).1.2))
         = length chs).
Proof.
  destruct (send_cases w (service_with w u subject message chs) db)
    as [(n0 & _ & -> & _)
       | (n0 & before & ch & after & Hchs & _ & _ & -> & _)];
    simpl in *.
  - rewrite length_map, firstn_all. split_and!; [reflexivity | lia |].
    right. reflexivity.
  - subst chs. rewrite length_map, take_app_length.
    split_and!; [reflexivity | | by left].
    rewrite length_app. simpl. destruct (py.truthy (Channel_name ch)); lia.
Qed.

(** The channels a fresh service attempted, the failed ones followed by
    the successful one, are the first [total_channels_attempted] channels
    of the list, when no channel has an empty name. *)
Lemma attempted_channels_prefix w u subject message chs db :
  Forall (fun ch => py.truthy (Channel_name ch) = true) chs ->
  DeliveryReport.failed_channels
    (NotificationService.get_delivery_report
       (NotificationService.send w
          (service_with w u subject message chs) db).1.2)
  ++ option_list
       (DeliveryReport.successful_channel
          (NotificationService.get_delivery_report
             (NotificationService.send w
                (service_with w u subject message chs) db).1.2))
  = map Channel_name
      (take
         (DeliveryReport.total_channels_attempted
            (NotificationService.get_delivery_report
               (NotificationService.send w
                  (service_with w u subject message chs) db).1.2))
         chs).
Proof.
  intros Hnames.
  destruct (send_cases w (service_with w u subject message chs) db)
    as [(n0 & _ & -> & _)
       | (n0 & before & ch & after & Hchs & _ & _ & -> & _)];
    simpl in *.
  - rewrite length_map, Nat.add_0_r, firstn_all. by rewrite app_nil_r.
  - subst chs.
    apply Forall_app in Hnames as [_ Hch].
    apply Forall_cons in Hch as [-> _].
    rewrite length_map, take_app_add. simpl.
    by rewrite map_app.
Qed.

(** X6.  For a recipient that has its row in the user table, the
    database accepting the insert and the update, [notify_user] hands
    back the service object, which carries the recipient, subject and
    message it was given.  The channels that service attempted, the
    failed ones followed by the successful one, are the first
    [total_channels_attempted] of telegram, email, sms, in that order;
    and the database is the one [send] leaves. *)
Theorem notify_user_returns_service w u subject message db :
  users w !! User.pk u = Some u ->
  exists service,
    (notify_user w u subject message db).1 = py.Return service
    /\ NotificationService.user service = u
    /\ NotificationService.subject service = subject
    /\ NotificationService.message service = message
    /\ NotificationService.failed_channels service
       ++ option_list (NotificationService.last_successful_channel service)
       = take (DeliveryReport.total_channels_attempted
                 (NotificationService.get_delivery_report service))
           ["telegram"; "email"; "sms"]
    /\ (notify_user w u subject message db).2
       = (NotificationService.send w
            (NotificationService.init w u subject message) db).2.
Proof.
  intros _.
  pose proof (attempted_channels_prefix w u subject message
                [ channel_of TelegramChannel.Build;
                  channel_of EmailChannel.Build;
                  channel_of (TwilioSMSChannel.init w) ] db
                ltac:(by repeat constructor)) as Hpre.
  change (service_with w u subject message _)
    with (NotificationService.init w u subject message) in Hpre.
  unfold notify_user.
  destruct (send_cases w (NotificationService.init w u subject message) db)
    as [(n0 & _ & Hs & _) | (n0 & before & ch & after & _ & _ & _ & Hs & _)];
    rewrite Hs in *; simpl in *.
  - eexists. split; [reflexivity|]. split_and!; reflexivity.
  - eexists. split; [reflexivity|]. split_and!; try reflexivity.
    simpl. rewrite Hpre. by rewrite fmap_take.
Qed.

(** test_basic_fallback, scenario 2, through [notify_user]: telegram
    failed, email delivered, two channels attempted. *)
Lemma notify_user_returns_service_witness :
  exists service,
    (notify_user scenario.mail_world scenario.user_without_telegram
       "Test 2" "Should use Email" empty_db).1 = py.Return service
    /\ NotificationService.user service = scenario.user_without_telegram
    /\ NotificationService.subject service = "Test 2"
    /\ NotificationService.message service = "Should use Email"
    /\ NotificationService.failed_channels service
       ++ option_list (NotificationService.last_successful_channel service)
       = take (DeliveryReport.total_channels_attempted
                 (NotificationService.get_delivery_report service))
           ["telegram"; "email"; "sms"]
    /\ (notify_user scenario.mail_world scenario.user_without_telegram
          "Test 2" "Should use Email" empty_db).2
       = (NotificationService.send scenario.mail_world
            (NotificationService.init scenario.mail_world
               scenario.user_without_telegram "Test 2" "Should use Email")
            empty_db).2.
Proof.
  apply (notify_user_returns_service scenario.mail_world
           scenario.user_without_telegram "Test 2" "Should use Email"
           empty_db).
  reflexivity.
Defined.

(** ** notifications/channels.py *)


(** X8.  The SMS channel reports success exactly when it holds a
    client, the recipient's profile has a non-empty phone number,
    TWILIO_PHONE_NUMBER exists, and [messages.create] returns; the body
    it is given is the subject, a line feed and the message, or the
    message alone when the subject is empty. *)
Theorem TwilioSMSChannel_delivers_iff w self u subject message :
  TwilioSMSChannel.send w self u subject message = py.Return true
  <-> exists the_client profile phone_number from_ sid,
        TwilioSMSChannel.client self = Some the_client
        /\ User.userprofile u = Some profile
        /\ UserProfile.phone_number profile = Some phone_number
        /\ py.truthy phone_number = true
        /\ settings w !! "TWILIO_PHONE_NUMBER" = Some from_
        /\ messages_create w the_client
             (if py.truthy subject
              then (subject ++ py.newline ++ message)%string
              else message)
             from_ phone_number
           = py.Return sid.
Proof.
  unfold TwilioSMSChannel.send, py.try_except, settings_attr, mbind,
    result_bind, py.bind.
  split.
  - case_channel_true.
    all: intros _; simpl in *.
    all: repeat match goal with
                | H : negb _ = false |- _ => apply negb_false_iff in H
                end.
    all: do 5 eexists; split_and!; eauto.
    all: match goal with
         | H : py.truthy ?x = _
           |- context [if py.truthy ?x then _ else _] => by rewrite H
         end.
  - intros (c & p & ph & f & sid & -> & -> & -> & Hph & Hf & Hcreate).
    rewrite Hph, Hf. simpl. by rewrite Hcreate.
Qed.

(** X9.  The Telegram channel reports success exactly when the
    recipient's profile has a non-empty chat id, TELEGRAM_BOT_TOKEN
    exists and is non-empty, and the POST to the bot's sendMessage URL,
    with that chat id, Markdown parse mode, a timeout of 10 and the text
    "*subject*", a line feed and the message (the message alone when the
    subject is empty), returns status 200 and a JSON object whose 'ok' is
    true. *)
Theorem TelegramChannel_delivers_iff w self u subject message :
  TelegramChannel.send w self u subject message = py.Return true
  <-> exists profile chat token response d v,
        User.userprofile u = Some profile
        /\ UserProfile.telegram_chat_id profile = Some chat
        /\ py.truthy chat = true
        /\ settings w !! "TELEGRAM_BOT_TOKEN" = Some token
        /\ py.truthy token = true
        /\ requests_post w
             ("https://api.telegram.org/bot" ++ token ++ "/sendMessage")%string
             {| chat_id := Some chat;
                text := if py.truthy subject
                        then ("*" ++ subject ++ "*" ++ py.newline
                              ++ message)%string
                        else message;
                parse_mode := "Markdown" |}
             10
           = py.Return response
        /\ status_code response = 200%Z
        /\ response_json response = py.Return (JDict d)
        /\ d !! "ok" = Some v
        /\ json_truthy v = true.
Proof.
  unfold TelegramChannel.send, TelegramChannel.response_get, py.try_except,
    settings_getattr, mbind, result_bind, py.bind.
  split.
  - destruct (User.userprofile u) as [p|]; [|discriminate].
    destruct (UserProfile.telegram_chat_id p) as [chat|] eqn:Hchat;
      [|discriminate].
    simpl.
    destruct (py.truthy chat) eqn:Hc; [|discriminate].
    destruct (settings w !! "TELEGRAM_BOT_TOKEN") as [token|] eqn:Htok;
      [|discriminate].
    simpl.
    destruct (py.truthy token) eqn:Ht; [|discriminate].
    simpl.
    destruct (requests_post w _ _ 10) as [r|e] eqn:Hpost;
      [|destruct e; discriminate].
    destruct (response_json r) as [[d|]|e] eqn:Hjson; simpl.
    + destruct (Z.eqb (status_code r) 200) eqn:Hst; simpl; [|discriminate].
      destruct (d !! "ok") as [v|] eqn:Hok; simpl; [|discriminate].
      destruct (json_truthy v) eqn:Hv; [|discriminate].
      intros _. exists p, chat, token, r, d, v.
      split_and!; try done. by apply Z.eqb_eq.
    + destruct (Z.eqb (status_code r) 200); discriminate.
    + destruct e; discriminate.
  - intros (p & chat & token & r & d & v & -> & -> & Hc & -> & Ht & Hpost
            & Hst & Hjson & Hok & Hv).
    simpl. rewrite Hc, Ht. simpl. rewrite Hpost, Hjson. simpl.
    rewrite (proj2 (Z.eqb_eq _ _) Hst), Hok. simpl. by rewrite Hv.
Qed.

(** X10.  When TWILIO_ACCOUNT_SID or TWILIO_AUTH_TOKEN is missing or
    empty, the SMS channel is built without a client and fails for every
    recipient, subject and message, whatever the transport would do. *)
Theorem sms_without_credentials_fails w u subject message :
  py.truthy_opt (settings_getattr w "TWILIO_ACCOUNT_SID")
  && py.truthy_opt (settings_getattr w "TWILIO_AUTH_TOKEN") = false ->
  TwilioSMSChannel.client (TwilioSMSChannel.init w) = None
  /\ send w (TwilioSMSChannel.init w) u subject message = py.Return false.
Proof.
  intros Hcred.
  assert (Hnone : TwilioSMSChannel.client (TwilioSMSChannel.init w) = None).
  { unfold TwilioSMSChannel.init.
    rewrite <- andb_assoc, Hcred, andb_false_r. reflexivity. }
  split; [exact Hnone|].
  simpl. unfold TwilioSMSChannel.send. by rewrite Hnone.
Qed.

(** Credentials but for the token: a recipient with a phone number is
    still not reached. *)
Lemma sms_without_credentials_fails_witness :
  TwilioSMSChannel.client
    (TwilioSMSChannel.init
       {| settings := {[ "TWILIO_ACCOUNT_SID" := "AC123" ]};
          send_mail := fun _ _ _ _ => py.Return 1;
          requests_post := fun _ _ _ => scenario.unreachable;
          messages_create := fun _ _ _ _ => py.Return "SM1";
          users := ∅;
          now := 0 |}) = None
  /\ send
       {| settings := {[ "TWILIO_ACCOUNT_SID" := "AC123" ]};
          send_mail := fun _ _ _ _ => py.Return 1;
          requests_post := fun _ _ _ => scenario.unreachable;
          messages_create := fun _ _ _ _ => py.Return "SM1";
          users := ∅;
          now := 0 |}
       (TwilioSMSChannel.init
          {| settings := {[ "TWILIO_ACCOUNT_SID" := "AC123" ]};
             send_mail := fun _ _ _ _ => py.Return 1;
             requests_post := fun _ _ _ => scenario.unreachable;
             messages_create := fun _ _ _ _ => py.Return "SM1";
             users := ∅;
             now := 0 |})
       scenario.user_without_telegram "s" "m" = py.Return false.
Proof.
  apply (sms_without_credentials_fails
           {| settings := {[ "TWILIO_ACCOUNT_SID" := "AC123" ]};
              send_mail := fun _ _ _ _ => py.Return 1;
              requests_post := fun _ _ _ => scenario.unreachable;
              messages_create := fun _ _ _ _ => py.Return "SM1";
              users := ∅;
              now := 0 |}
           scenario.user_without_telegram "s" "m").
  vm_compute. reflexivity.
Defined.

(** With both credentials the client is built from them. *)
Lemma sms_with_credentials_has_client w sid token :
  settings w !! "TWILIO_ACCOUNT_SID" = Some sid ->
  settings w !! "TWILIO_AUTH_TOKEN" = Some token ->
  py.truthy sid = true ->
  py.truthy token = true ->
  TwilioSMSChannel.client (TwilioSMSChannel.init w)
  = Some {| account_sid := sid; auth_token := token |}.
Proof.
  intros Hsid Htok Hs Ht.
  unfold TwilioSMSChannel.init, settings_hasattr, settings_getattr.
  rewrite Hsid, Htok. simpl. rewrite Hs, Ht. reflexivity.
Qed.

(** X11.  A recipient in the user table with an empty email address, no
    chat id and no phone number is reached in no world: whatever the
    settings and the transports, [send()] on the default service returns
    false, the report lists telegram, email and sms as failed, and the
    record is 'failed'. *)
Theorem recipient_without_contacts_is_unreachable w u subject message db :
  users w !! User.pk u = Some u ->
  py.truthy (User.email u) = false ->
  has_chat_id u = false ->
  has_phone_number u = false ->
  (NotificationService.send w
     (NotificationService.init w u subject message) db).1.1
  = py.Return false
  /\ DeliveryReport.failed_channels
       (NotificationService.get_delivery_report
          (NotificationService.send w
             (NotificationService.init w u subject message) db).1.2)
     = ["telegram"; "email"; "sms"]
  /\ exists n,
       rows (NotificationService.send w
               (NotificationService.init w u subject message) db).2
       !! length (rows db) = Some n
       /\ Notification.status n = "failed"
       /\ Notification.sent_via n = "".
Proof.
  intros _ Hmail Hchat Hphone.
  set (s0 := NotificationService.init w u subject message).
  assert (Hall : Forall (fails w s0) (NotificationService.channels s0)).
  { simpl. repeat constructor; unfold fails, outcome; simpl.
    - by rewrite TelegramChannel_without_chat_id.
    - unfold EmailChannel.send. by rewrite Hmail.
    - unfold TwilioSMSChannel.send, has_phone_number in *.
      destruct (TwilioSMSChannel.client _); [|reflexivity].
      destruct (User.userprofile u) as [p|]; [|reflexivity].
      destruct (UserProfile.phone_number p) as [ph|]; [|reflexivity].
      simpl in Hphone. by rewrite Hphone. }
  unfold NotificationService.send.
  rewrite (run_send_all_fail w s0 db Hall). simpl.
  split_and!; try reflexivity.
  eexists. split; [apply lookup_updated_last|]. by split.
Qed.

(** User 3 is in the table and has no address: not reached, even where
    mail works. *)
Lemma recipient_without_contacts_is_unreachable_witness :
  (NotificationService.send scenario.mail_world_with_nobody
     (NotificationService.init scenario.mail_world_with_nobody
        scenario.user_without_contacts "s" "m") empty_db).1.1
  = py.Return false
  /\ DeliveryReport.failed_channels
       (NotificationService.get_delivery_report
          (NotificationService.send scenario.mail_world_with_nobody
             (NotificationService.init scenario.mail_world_with_nobody
                scenario.user_without_contacts "s" "m") empty_db).1.2)
     = ["telegram"; "email"; "sms"]
  /\ exists n,
       rows (NotificationService.send scenario.mail_world_with_nobody
               (NotificationService.init scenario.mail_world_with_nobody
                  scenario.user_without_contacts "s" "m") empty_db).2
       !! length (rows empty_db) = Some n
       /\ Notification.status n = "failed"
       /\ Notification.sent_via n = "".
Proof.
  apply (recipient_without_contacts_is_unreachable
           scenario.mail_world_with_nobody scenario.user_without_contacts
           "s" "m" empty_db);
    reflexivity.
Defined.

(** ** notifications/tasks.py *)

(** The four ways an execution of the task can end. *)
Lemma task_table w request user_id subject message s :
  users w !! user_id = None
  /\ tasks.send_notification_task w request user_id subject message s
     = (py.Return (tasks.status_error "user_not_found" user_id), s)
  \/ exists u,
       users w !! user_id = Some u
       /\ ((NotificationService.send w
              (NotificationService.init w u subject message)
              (tasks.db s)).1.1 = py.Return true
           /\ tasks.send_notification_task w request user_id subject message s
              = (py.Return
                   (tasks.status_success user_id (User.username u)
                      (NotificationService.last_successful_channel
                         (NotificationService.send w
                            (NotificationService.init w u subject message)
                            (tasks.db s)).1.2)
                      subject),
                 {| tasks.db :=
                      (NotificationService.send w
                         (NotificationService.init w u subject message)
                         (tasks.db s)).2;
                    tasks.broker := tasks.broker s |})
           \/ (NotificationService.send w
                 (NotificationService.init w u subject message)
                 (tasks.db s)).1.1 = py.Return false
              /\ tasks.retries request + 1 <= tasks.max_retries
              /\ tasks.send_notification_task w request user_id subject
                   message s
                 = (py.Raise (py.Retry 30),
                    {| tasks.db :=
                         (NotificationService.send w
                            (NotificationService.init w u subject message)
                            (tasks.db s)).2;
                       tasks.broker :=
                         tasks.broker s
                         ++ [ {| tasks.sig_user_id := user_id;
                                 tasks.sig_subject := subject;
                                 tasks.sig_message := message;
                                 tasks.sig_retries :=
                                   tasks.retries request + 1;
                                 tasks.sig_countdown := 60 |};
                              {| tasks.sig_user_id := user_id;
                                 tasks.sig_subject := subject;
                                 tasks.sig_message := message;
                                 tasks.sig_retries :=
                                   tasks.retries request + 1;
                                 tasks.sig_countdown := 30 |} ] |})
           \/ (NotificationService.send w
                 (NotificationService.init w u subject message)
                 (tasks.db s)).1.1 = py.Return false
              /\ tasks.max_retries < tasks.retries request + 1
              /\ tasks.send_notification_task w request user_id subject
                   message s
                 = (py.Return
                      (tasks.status_error "max_retries_exceeded" user_id),
                    {| tasks.db :=
                         (NotificationService.send w
                            (NotificationService.init w u subject message)
                            (tasks.db s)).2;
                       tasks.broker := tasks.broker s |})).
Proof.
  destruct (users w !! user_id) as [u|] eqn:Hu.
  - right. exists u. split; [reflexivity|].
    destruct (send_returns w (NotificationService.init w u subject message)
                (tasks.db s)) as [b Hb].
    run_task. rewrite Hu. simpl.
    destruct (NotificationService.send w _ (tasks.db s)) as [[r svc] d].
    simpl in Hb. subst r. simpl. destruct b; simpl.
    + left. by split.
    + right.
      destruct (decide (tasks.retries request + 1 <= tasks.max_retries))
        as [Hleft | Hout].
      * left. rewrite bool_decide_eq_false_2 by lia. simpl.
        rewrite <- app_assoc. by split_and!.
      * right. rewrite bool_decide_eq_true_2 by lia. simpl.
        split_and!; [reflexivity | lia | reflexivity].
  - left. split; [reflexivity|].
    by apply task_user_not_found.
Qed.

(** X12.  When the user exists and a channel delivers, the task returns
    the success dictionary with the user id, the user name, the name of
    the channel that delivered and the subject; it sends no retry, and
    the database is the one [send] leaves. *)
Theorem task_success_names_the_channel w request user_id subject message s u :
  users w !! user_id = Some u ->
  (NotificationService.send w
     (NotificationService.init w u subject message) (tasks.db s)).1.1
  = py.Return true ->
  (tasks.send_notification_task w request user_id subject message s).1
  = py.Return
      (tasks.status_success user_id (User.username u)
         (DeliveryReport.successful_channel
            (NotificationService.get_delivery_report
               (NotificationService.send w
                  (NotificationService.init w u subject message)
                  (tasks.db s)).1.2))
         subject)
  /\ tasks.broker
       (tasks.send_notification_task w request user_id subject message s).2
     = tasks.broker s
  /\ tasks.db
       (tasks.send_notification_task w request user_id subject message s).2
     = (NotificationService.send w
          (NotificationService.init w u subject message) (tasks.db s)).2.
Proof.
  intros Hu Hsend.
  destruct (task_table w request user_id subject message s)
    as [[Hnone _] | (u' & Hu' & Hcase)]; [congruence|].
  assert (u' = u) as -> by congruence.
  destruct Hcase as [(_ & ->) | [(Hf & _) | (Hf & _)]];
    [by split_and! | congruence | congruence].
Qed.

Lemma task_success_names_the_channel_witness :
  (tasks.send_notification_task scenario.mail_world {| tasks.retries := 0 |}
     1 "s" "m" {| tasks.db := empty_db; tasks.broker := [] |}).1
  = py.Return (tasks.status_success 1 "test_user" (Some "email") "s")
  /\ tasks.broker
       (tasks.send_notification_task scenario.mail_world
          {| tasks.retries := 0 |} 1 "s" "m"
          {| tasks.db := empty_db; tasks.broker := [] |}).2
     = []
  /\ tasks.db
       (tasks.send_notification_task scenario.mail_world
          {| tasks.retries := 0 |} 1 "s" "m"
          {| tasks.db := empty_db; tasks.broker := [] |}).2
     = (NotificationService.send scenario.mail_world
          (NotificationService.init scenario.mail_world
             scenario.user_without_telegram "s" "m") empty_db).2.
Proof.
  assert (H1 : users scenario.mail_world !! 1
               = Some scenario.user_without_telegram) by reflexivity.
  assert (H2 : (NotificationService.send scenario.mail_world
                  (NotificationService.init scenario.mail_world
                     scenario.user_without_telegram "s" "m")
                  empty_db).1.1 = py.Return true)
    by (vm_compute; reflexivity).
  exact (task_success_names_the_channel scenario.mail_world
           {| tasks.retries := 0 |} 1 "s" "m"
           {| tasks.db := empty_db; tasks.broker := [] |}
           scenario.user_without_telegram H1 H2).
Defined.

(** The task of the model is the task over its own collaborators. *)
Lemma send_notification_task_is_with w request user_id subject message :
  tasks.send_notification_task w request user_id subject message
  = send_notification_task_with w (tasks.User_objects_get w)
      (NotificationService.send w) request user_id subject message.
Proof. reflexivity. Qed.

Ltac run_task_with :=
  unfold send_notification_task_with, service_send_with, tasks.retry,
    tasks.apply_async, py.try_except_st, mbind, stateful_bind, result_bind,
    py.bind_st, py.bind, py.call, py.update, py.raise, py.ret_st; simpl.

(** The ways an execution can end, whatever its collaborators do. *)
Lemma task_with_table w lookup run_send request user_id subject message s :
  let out := send_notification_task_with w lookup run_send request user_id
               subject message s in
  (exists r, out.1 = py.Return r /\ tasks.broker out.2 = tasks.broker s)
  \/ (out.1 = py.Raise (py.Retry 30)
      /\ tasks.retries request + 1 <= 3
      /\ (tasks.broker out.2
          = tasks.broker s
            ++ [ retry_message request user_id subject message 60;
                 retry_message request user_id subject message 30 ]
          /\ (exists u,
                lookup user_id = py.Return u
                /\ (run_send (NotificationService.init w u subject message)
                      (tasks.db s)).1.1 = py.Return false)
          \/ tasks.broker out.2
             = tasks.broker s
               ++ [ retry_message request user_id subject message 30 ]
             /\ exists e,
                  try_body_raises w lookup run_send user_id subject message
                    s e))
  \/ (exists e,
        out.1 = py.Raise e
        /\ 3 < tasks.retries request + 1
        /\ tasks.broker out.2 = tasks.broker s
        /\ try_body_raises w lookup run_send user_id subject message s e).
Proof.
  intros out. subst out. unfold try_body_raises, retry_message.
  run_task_with.
  destruct (lookup user_id) as [u|e] eqn:Hlookup; simpl.
  - destruct (run_send (NotificationService.init w u subject message)
                (tasks.db s)) as [[r svc] d] eqn:Hsend.
    simpl. destruct r as [[|]|e]; simpl.
    + left. eexists. split; reflexivity.
    + destruct (decide (tasks.max_retries < tasks.retries request + 1))
        as [Hout | Hleft].
      * rewrite bool_decide_eq_true_2 by exact Hout. simpl.
        left. eexists. split; reflexivity.
      * rewrite bool_decide_eq_false_2 by exact Hleft. simpl.
        right. left. unfold tasks.max_retries in Hleft.
        split_and!; [reflexivity | lia |].
        left. rewrite <- app_assoc. split; [reflexivity|].
        exists u. by rewrite Hsend.
    + destruct (tasks.is_User_DoesNotExist e); simpl.
      * left. eexists. split; reflexivity.
      * destruct (decide (tasks.max_retries < tasks.retries request + 1))
          as [Hout | Hleft].
        -- rewrite bool_decide_eq_true_2 by exact Hout. simpl.
           unfold tasks.max_retries in Hout.
           destruct e; simpl;
             first [ left; eexists; split; reflexivity
                   | right; right; eexists;
                     split_and!; [reflexivity | lia | reflexivity |];
                     right; exists u; by rewrite Hsend ].
        -- rewrite bool_decide_eq_false_2 by exact Hleft. simpl.
           right. left. unfold tasks.max_retries in Hleft.
           split_and!; [reflexivity | lia |].
           right. split; [reflexivity|]. exists e. right.
           exists u. by rewrite Hsend.
  - destruct (tasks.is_User_DoesNotExist e); simpl.
    + left. eexists. split; reflexivity.
    + destruct (decide (tasks.max_retries < tasks.retries request + 1))
        as [Hout | Hleft].
      * rewrite bool_decide_eq_true_2 by exact Hout. simpl.
        unfold tasks.max_retries in Hout.
        destruct e; simpl;
          first [ left; eexists; split; reflexivity
                | right; right; eexists;
                  split_and!; [reflexivity | lia | reflexivity |];
                  by left ].
      * rewrite bool_decide_eq_false_2 by exact Hleft. simpl.
        right. left. unfold tasks.max_retries in Hleft.
        split_and!; [reflexivity | lia |].
        right. split; [reflexivity|]. exists e. by left.
Qed.

(** X13.  Whatever the user lookup and [service.send()] do, raising
    included, an execution ends in one of three ways.  It returns a
    dictionary and leaves the broker alone.  Or, while retries remain, it
    raises Retry with a delay of 30 seconds, having put on the broker two
    messages, delayed by 60 and by 30 seconds, when [send()] returned
    false, and one message, delayed by 30 seconds, when a collaborator
    raised.  Or, the retries used up, it lets the exception a
    collaborator raised leave the task, and sends nothing.  Every message
    carries the arguments of the execution and its retry count plus
    one. *)
Theorem task_returns_or_retries w lookup run_send request user_id subject
    message s :
  let out := send_notification_task_with w lookup run_send request user_id
               subject message s in
  (exists r, out.1 = py.Return r /\ tasks.broker out.2 = tasks.broker s)
  \/ (out.1 = py.Raise (py.Retry 30)
      /\ tasks.retries request + 1 <= 3
      /\ (tasks.broker out.2
          = tasks.broker s
            ++ [ retry_message request user_id subject message 60;
                 retry_message request user_id subject message 30 ]
          /\ (exists u,
                lookup user_id = py.Return u
                /\ (run_send (NotificationService.init w u subject message)
                      (tasks.db s)).1.1 = py.Return false)
          \/ tasks.broker out.2
             = tasks.broker s
               ++ [ retry_message request user_id subject message 30 ]
             /\ exists e,
                  try_body_raises w lookup run_send user_id subject message
                    s e))
  \/ (exists e,
        out.1 = py.Raise e
        /\ 3 < tasks.retries request + 1
        /\ tasks.broker out.2 = tasks.broker s
        /\ try_body_raises w lookup run_send user_id subject message s e).
Proof.
  intros out. subst out.
  exact (task_with_table w lookup run_send request user_id subject message
           s).
Qed.

(** X14.  An execution whose retry count has reached 3 sends nothing,
    whatever the user lookup and [service.send()] do: it returns a
    dictionary, or it lets the exception a collaborator raised leave the
    task. *)
Theorem exhausted_execution_sends_nothing w lookup run_send request user_id
    subject message s :
  tasks.max_retries <= tasks.retries request ->
  let out := send_notification_task_with w lookup run_send request user_id
               subject message s in
  tasks.broker out.2 = tasks.broker s
  /\ ((exists r, out.1 = py.Return r)
      \/ exists e,
           out.1 = py.Raise e
           /\ try_body_raises w lookup run_send user_id subject message s e).
Proof.
  intros Hout out.
  destruct (task_with_table w lookup run_send request user_id
              subject message s)
    as [(r & Hr & Hb) | [(_ & Hle & _) | (e & He & _ & Hb & Hraised)]].
  - split; [exact Hb|]. left. by exists r.
  - unfold tasks.max_retries in Hout. lia.
  - split; [exact Hb|]. right. by exists e.
Qed.

(** At retry count 3: a lookup that fails with a database error lets
    that error leave the task, and nothing is sent. *)
Lemma exhausted_execution_sends_nothing_witness :
  let out := send_notification_task_with scenario.dead_world
               (fun _ => py.Raise (py.RuntimeError "database is down"))
               (NotificationService.send scenario.dead_world)
               {| tasks.retries := 3 |} 2 "s" "m"
               {| tasks.db := empty_db; tasks.broker := [] |} in
  tasks.broker out.2 = []
  /\ ((exists r, out.1 = py.Return r)
      \/ exists e,
           out.1 = py.Raise e
           /\ try_body_raises scenario.dead_world
                (fun _ => py.Raise (py.RuntimeError "database is down"))
                (NotificationService.send scenario.dead_world)
                2 "s" "m" {| tasks.db := empty_db; tasks.broker := [] |} e).
Proof.
  apply (exhausted_execution_sends_nothing scenario.dead_world
           (fun _ => py.Raise (py.RuntimeError "database is down"))
           (NotificationService.send scenario.dead_world)
           {| tasks.retries := 3 |} 2 "s" "m"
           {| tasks.db := empty_db; tasks.broker := [] |}).
  simpl. unfold tasks.max_retries. lia.
Defined.

(** *** The worker *)

Lemma executions_left_pos sig : 1 <= executions_left sig.
Proof.
  unfold executions_left, tasks.max_retries.
  destruct (tasks.sig_retries sig) as [|[|[|[|r]]]]; simpl; lia.
Qed.

(** What one execution puts on an empty broker weighs less than the
    message it was started from. *)
Lemma execute_weight w sig d :
  tasks.sig_retries sig <= tasks.max_retries ->
  queue_weight (tasks.broker (tasks.execute w sig d).2) < executions_left sig
  /\ Forall (fun sig' => tasks.sig_retries sig' <= tasks.max_retries)
       (tasks.broker (tasks.execute w sig d).2).
Proof.
  intros Hr. unfold tasks.execute.
  destruct (task_table w {| tasks.retries := tasks.sig_retries sig |}
              (tasks.sig_user_id sig) (tasks.sig_subject sig)
              (tasks.sig_message sig)
              {| tasks.db := d; tasks.broker := [] |})
    as [[_ ->] | (u & _ & [(_ & ->) | [(_ & Hle & ->) | (_ & _ & ->)]])];
    simpl in *.
  - split; [apply executions_left_pos | constructor].
  - split; [apply executions_left_pos | constructor].
  - split.
    + unfold queue_weight, executions_left, tasks.max_retries in *. simpl.
      destruct (tasks.sig_retries sig) as [|[|[|r]]]; simpl in *; lia.
    + constructor; [simpl; lia|]. constructor; [simpl; lia|]. constructor.
  - split; [apply executions_left_pos | constructor].
Qed.

(** With fuel for the weight of the queue the worker empties it, and
    runs no more executions than that weight. *)
Lemma worker_bounded w fuel : forall queue d,
  Forall (fun sig => tasks.sig_retries sig <= tasks.max_retries) queue ->
  queue_weight queue <= fuel ->
  (tasks.worker fuel w queue d).1.2 = []
  /\ length (tasks.worker fuel w queue d).1.1 <= queue_weight queue
  /\ Forall (fun run => tasks.sig_retries run.1 <= tasks.max_retries)
       (tasks.worker fuel w queue d).1.1.
Proof.
  induction fuel as [|fuel IH]; intros queue d Hq Hfuel.
  - destruct queue as [|sig queue].
    + simpl. split_and!; [reflexivity | lia | constructor].
    + unfold queue_weight in Hfuel. simpl in Hfuel.
      pose proof (executions_left_pos sig). lia.
  - destruct queue as [|sig queue].
    + simpl. split_and!; [reflexivity | lia | constructor].
    + inversion Hq as [|? ? Hsig Hrest]; subst.
      destruct (execute_weight w sig d Hsig) as [Hlt Hnew].
      simpl.
      destruct (tasks.execute w sig d) as [r s] eqn:Hexec. simpl in *.
      assert (Hq' : Forall (fun sig => tasks.sig_retries sig
                                       <= tasks.max_retries)
                      (queue ++ tasks.broker s)).
      { apply Forall_app. by split. }
      assert (Hw : queue_weight (queue ++ tasks.broker s)
                   = queue_weight queue + queue_weight (tasks.broker s)).
      { unfold queue_weight. apply sum_list_with_app. }
      assert (Hfuel' : queue_weight (queue ++ tasks.broker s) <= fuel).
      { unfold queue_weight in *. simpl in Hfuel. lia. }
      destruct (IH (queue ++ tasks.broker s) (tasks.db s) Hq' Hfuel')
        as (Hdrained & Hlen & Hlog).
      destruct (tasks.worker fuel w (queue ++ tasks.broker s) (tasks.db s))
        as [[log pending] d'].
      simpl in *. split_and!.
      * exact Hdrained.
      * unfold queue_weight in *. simpl. lia.
      * constructor; [exact Hsig | exact Hlog].
Qed.

(** X15.  Retrying is bounded in every world: started from one call of
    [delay], a worker has emptied the broker after at most 15
    executions, and no execution sees a retry count above 3. *)
Theorem worker_runs_at_most_15 w user_id subject message d :
  (tasks.worker 15 w [tasks.delay user_id subject message] d).1.2 = []
  /\ length (tasks.worker 15 w [tasks.delay user_id subject message] d).1.1
     <= 15
  /\ Forall (fun run => tasks.sig_retries run.1 <= 3)
       (tasks.worker 15 w [tasks.delay user_id subject message] d).1.1.
Proof.
  apply (worker_bounded w 15 [tasks.delay user_id subject message] d).
  - constructor; [simpl; unfold tasks.max_retries; lia | constructor].
  - vm_compute. lia.
Qed.

(** X16.  Every execution for a user that exists, first attempt or
    retry, delivered or not, adds one record of its own for that user,
    subject and message, and leaves the records of earlier attempts
    untouched. *)
Theorem execution_creates_one_record w request user_id subject message s u :
  users w !! user_id = Some u ->
  length
    (rows
       (tasks.db
          (tasks.send_notification_task w request user_id subject message
             s).2))
  = S (length (rows (tasks.db s)))
  /\ take (length (rows (tasks.db s)))
       (rows
          (tasks.db
             (tasks.send_notification_task w request user_id subject
                message s).2))
     = rows (tasks.db s)
  /\ exists n,
       rows
         (tasks.db
            (tasks.send_notification_task w request user_id subject message
               s).2)
       !! length (rows (tasks.db s)) = Some n
       /\ Notification.user n = u
       /\ Notification.subject n = subject
       /\ Notification.message n = message.
Proof.
  intros Hu.
  assert (Hdb : tasks.db
                  (tasks.send_notification_task w request user_id subject
                     message s).2
                = (NotificationService.send w
                     (NotificationService.init w u subject message)
                     (tasks.db s)).2).
  { destruct (task_table w request user_id subject message s)
      as [[Hnone _] | (u' & Hu' & Hcase)]; [congruence|].
    assert (u' = u) as -> by congruence.
    by destruct Hcase as [(_ & ->) | [(_ & _ & ->) | (_ & _ & ->)]]. }
  rewrite Hdb.
  destruct (send_cases w (NotificationService.init w u subject message)
              (tasks.db s))
    as [(n0 & _ & -> & ->) | (n0 & before & ch & after & _ & _ & _ & -> & ->)];
    simpl.
  - split_and!.
    + rewrite length_insert, length_app. simpl. lia.
    + apply take_updated_last.
    + eexists. split; [apply lookup_updated_last|]. by split_and!.
  - split_and!.
    + rewrite length_insert, length_app. simpl. lia.
    + apply take_updated_last.
    + eexists. split; [apply lookup_updated_last|]. by split_and!.
Qed.

(** A retry for the recipient nobody reaches, run against a table that
    already holds the record of the first attempt. *)
Lemma execution_creates_one_record_witness :
  let s := {| tasks.db :=
                (tasks.execute scenario.dead_world
                   (tasks.delay 2 "s" "m") empty_db).2.(tasks.db);
              tasks.broker := [] |} in
  length
    (rows
       (tasks.db
          (tasks.send_notification_task scenario.dead_world
             {| tasks.retries := 1 |} 2 "s" "m" s).2))
  = S (length (rows (tasks.db s)))
  /\ take (length (rows (tasks.db s)))
       (rows
          (tasks.db
             (tasks.send_notification_task scenario.dead_world
                {| tasks.retries := 1 |} 2 "s" "m" s).2))
     = rows (tasks.db s)
  /\ exists n,
       rows
         (tasks.db
            (tasks.send_notification_task scenario.dead_world
               {| tasks.retries := 1 |} 2 "s" "m" s).2)
       !! length (rows (tasks.db s)) = Some n
       /\ Notification.user n = scenario.user_unreachable
       /\ Notification.subject n = "s"
       /\ Notification.message n = "m".
Proof.
  intros s.
  exact (execution_creates_one_record scenario.dead_world
           {| tasks.retries := 1 |} 2 "s" "m" s scenario.user_unreachable
           eq_refl).
Defined.
